(** * NutriAi recommender core: a shallow embedding and its properties

    The development follows the three modules of [ml-backend/recommender]:

    - [nutrition_engine.py]: profile, BMR/TDEE, macro targets, meal shares;
    - [bandit.py]: the per-(user, dish) LinUCB store, selection, update,
      persistence;
    - [meal_recommender.py]: the tagging of the data set in [__init__], the
      candidate filter and the weekly planner;

    and, around them, the keyword classifiers of [enrich_csv.py], the gram
    and water helpers of [utils/nutrition_calculator.py] and the ratio table
    of [app/body_analyzer.py].

    Numbers.  Python [float] values are embedded as exact rationals ([Q]);
    Python [int] as [Z].  Statements about [Q] use the setoid equality [==].
    The one function whose stated property is sensitive to binary64 rounding,
    [get_meal_macro_targets], is written once over an interface of float
    operations and instantiated both at [Q] and at IEEE doubles.

    Exceptions.  [float / float] raises [ZeroDivisionError] on a zero divisor;
    the only division of the core whose divisor is not a nonzero constant or
    guarded is the one in [UserProfile.bmi].  Functions that can raise return
    a [result]; stateful ones thread the bandit store explicitly and keep the
    mutations made before the exception, as the shared Python object does.

    Range.  Exact rationals neither underflow nor overflow.  In binary64 the
    square [(height_cm / 100) ** 2] is [0.0] for heights below about 1e-160
    and raises [OverflowError] above about 1e156, so the statements that say
    that a call returns are made for heights of ordinary magnitude
    ([height_in_range]); at height 0 model and code raise alike.

    numpy.  Arrays are lists ([tolist] and [np.array] are the identity).
    [np.linalg.inv] and [np.sqrt] are library code; they are taken as
    parameters (class [LinAlg]).  The shape checks of numpy's operators are
    not modelled: the statements that say that a call returns are made for
    the stores of the service ([reachable_store]: created with [d = 11], the
    length of the context vector, and used through [select_dish] and
    [update]), whose arms have matching shapes and an invertible [A]. *)

From Stdlib Require Import Ascii String.
From Stdlib Require Import QArith Qround Qabs Lqa ZArith Lia.
From Stdlib Require Import PrimFloat Uint63.
From stdpp Require Import base decidable option list strings.

Set Default Proof Using "Type".
#[local] Set Warnings "-inexact-float".

Open Scope Q_scope.

(* ===================================================================== *)
(** * Python prelude                                                      *)
(* ===================================================================== *)

(** ** Exceptions *)

Inductive exn : Type :=
  | ZeroDivisionError
  | ValueError
  | FileNotFoundError (path : string).

Inductive result (A : Type) : Type :=
  | Ok (a : A)
  | Raise (e : exn).
Arguments Ok {A} a.
Arguments Raise {A} e.

Definition rbind {A B} (r : result A) (k : A -> result B) : result B :=
  match r with
  | Ok a => k a
  | Raise e => Raise e
  end.

(** ** Float operations on rationals *)

Definition Qltb (x y : Q) : bool := negb (Qle_bool y x).

(** [max(a, b)] returns [b] only when [b > a]; [min(a, b)] only when [b < a]. *)
Definition pymax (a b : Q) : Q := if Qltb a b then b else a.
Definition pymin (a b : Q) : Q := if Qltb b a then b else a.

(** [a / b] on floats. *)
Definition pydiv (a b : Q) : result Q :=
  if Qeq_bool b 0 then Raise ZeroDivisionError else Ok (a / b).

(** [round(x, 1)]: nearest multiple of one tenth, halves to the even digit. *)
Definition round1 (x : Q) : Q :=
  let n := Qfloor (x * 10) in
  let r := x * 10 - inject_Z n in
  if Qltb r (1 # 2) then inject_Z n / 10
  else if Qltb (1 # 2) r then inject_Z (n + 1) / 10
  else if Z.even n then inject_Z n / 10
  else inject_Z (n + 1) / 10.

(** ** Strings *)

Definition lower_ascii (c : ascii) : ascii :=
  let n := nat_of_ascii c in
  if (65 <=? n)%nat && (n <=? 90)%nat then ascii_of_nat (n + 32) else c.

(** [str.lower()] on the ASCII range. *)
Fixpoint lower (s : string) : string :=
  match s with
  | EmptyString => EmptyString
  | String c s' => String (lower_ascii c) (lower s')
  end.

(** [a in s] for strings: [a] occurs in [s] as a substring. *)
Fixpoint contains (a s : string) : bool :=
  String.prefix a s ||
  match s with
  | EmptyString => false
  | String _ s' => contains a s'
  end.

Fixpoint drop_chars (n : nat) (s : string) : string :=
  match n, s with
  | O, _ => s
  | S n', String _ s' => drop_chars n' s'
  | S _, EmptyString => EmptyString
  end.

(** [s.split(sep, 1)] when it yields two parts: the text before the first
    occurrence of [sep] and the text after it; [None] when [sep] does not
    occur (the list has one element and the two-target unpacking raises). *)
Fixpoint split_once (sep s : string) : option (string * string) :=
  if String.prefix sep s then Some (EmptyString, drop_chars (String.length sep) s)
  else match s with
       | EmptyString => None
       | String c s' =>
           match split_once sep s' with
           | Some (u, d) => Some (String c u, d)
           | None => None
           end
       end.

(** ** Dictionaries

    A Python [dict] keeps its keys unique and in insertion order; iteration
    ([items()]) follows that order. *)

Section Dict.
Context {K V : Type} `{EqDecision K}.

Definition dict : Type := list (K * V).

Fixpoint dict_lookup (k : K) (m : dict) : option V :=
  match m with
  | [] => None
  | (k', v) :: m' => if decide (k = k') then Some v else dict_lookup k m'
  end.

(** [m.get(k, dflt)] *)
Definition dict_get (k : K) (dflt : V) (m : dict) : V :=
  match dict_lookup k m with
  | Some v => v
  | None => dflt
  end.

(** [k in m] *)
Definition dict_mem (k : K) (m : dict) : bool :=
  match dict_lookup k m with
  | Some _ => true
  | None => false
  end.

(** [m[k] = v]: overwrite in place, or append a new key. *)
Fixpoint dict_set (k : K) (v : V) (m : dict) : dict :=
  match m with
  | [] => [(k, v)]
  | (k', v') :: m' =>
      if decide (k = k') then (k, v) :: m' else (k', v') :: dict_set k v m'
  end.

Definition dict_keys (m : dict) : list K := map fst m.
End Dict.
Arguments dict : clear implicits.

(** A dict comprehension [{f(k, v): g(k, v) for k, v in m.items()}] and the
    loops [for k, v in m.items(): out[...] = ...] insert the entries in
    iteration order. *)
Definition dict_of_items {K V} `{EqDecision K} (items : list (K * V)) : dict K V :=
  fold_left (fun acc kv => dict_set (fst kv) (snd kv) acc) items [].

(* ===================================================================== *)
(** * recommender/nutrition_engine.py                                     *)
(* ===================================================================== *)

Inductive Gender := male | female.
Inductive ActivityLevel := sedentary | light | moderate | very_active | extra_active.
Inductive Goal := weight_loss | maintenance | muscle_gain.
Inductive DietaryPref := veg | non_veg.

Record UserProfile : Type := mkUserProfile {
  user_id : string;
  height_cm : Q;
  weight_kg : Q;
  age : Z;
  gender : Gender;
  activity_level : ActivityLevel;
  goal : Goal;
  target_calories : option Q;
  target_protein_g : option Q;
  dietary_pref : DietaryPref;
  allergies : option (list string);
}.

(** Property [bmi]: [weight_kg / (height_cm / 100) ** 2].  In exact
    arithmetic the square is 0 only for height 0. *)
Definition bmi (profile : UserProfile) : result Q :=
  let h_m := height_cm profile / 100 in
  pydiv (weight_kg profile) (h_m * h_m).

Record MacroTargets (F : Type) : Type := mkMacroTargets {
  calories : F;
  protein_g : F;
  carbs_g : F;
  fats_g : F;
}.
Arguments mkMacroTargets {F} _ _ _ _.
Arguments calories {F} _.
Arguments protein_g {F} _.
Arguments carbs_g {F} _.
Arguments fats_g {F} _.

Definition ACTIVITY_MULTIPLIERS (a : ActivityLevel) : Q :=
  match a with
  | sedentary => 1.2
  | light => 1.375
  | moderate => 1.55
  | very_active => 1.725
  | extra_active => 1.9
  end.

Definition compute_bmr (profile : UserProfile) : Q :=
  let w := weight_kg profile in
  let h := height_cm profile in
  let a := inject_Z (age profile) in
  match gender profile with
  | male => 10 * w + 6.25 * h - 5 * a + 5
  | female => 10 * w + 6.25 * h - 5 * a - 161
  end.

Definition compute_tdee (profile : UserProfile) : Q :=
  let bmr := compute_bmr profile in
  let mult := ACTIVITY_MULTIPLIERS (activity_level profile) in
  bmr * mult.

Definition adjust_for_goal (tdee : Q) (goal : Goal) : Q :=
  match goal with
  | weight_loss => pymax 1200 (tdee - 400)
  | muscle_gain => tdee + 300
  | maintenance => tdee
  end.

Definition compute_macro_targets (profile : UserProfile) : MacroTargets Q :=
  let tdee := compute_tdee profile in
  let daily_cals := adjust_for_goal tdee (goal profile) in
  let daily_cals :=
    match target_calories profile with
    | Some c => c
    | None => daily_cals
    end in
  let protein :=
    match target_protein_g profile with
    | Some p => p
    | None => 1.8 * weight_kg profile
    end in
  let fats := 0.8 * weight_kg profile in
  let protein_cal := 4 * protein in
  let fat_cal := 9 * fats in
  let remaining_cal := pymax 0 (daily_cals - protein_cal - fat_cal) in
  let carbs := remaining_cal / 4 in
  mkMacroTargets (round1 daily_cals) (round1 protein) (round1 carbs) (round1 fats).

(** The float operations [get_meal_macro_targets] uses: a decimal literal
    [n/d] and the product. [fadd] and [feq] are the [+] and [==] with which
    its results are summed and compared. *)
Class PyFloat (F : Type) : Type := {
  of_decimal : Z -> positive -> F;
  fmul : F -> F -> F;
  fadd : F -> F -> F;
  feq : F -> F -> bool;
}.

(** Exact arithmetic. *)
#[export] Instance exact_float : PyFloat Q := {|
  of_decimal n d := n # d;
  fmul := Qmult;
  fadd := Qplus;
  feq := Qeq_bool;
|}.

(** IEEE 754 binary64, the arithmetic CPython runs.  The quotient of two
    small integers is correctly rounded, so [of_decimal 35 100] is the double
    that the literal [0.35] denotes. *)
#[export] Instance binary64 : PyFloat float := {|
  of_decimal n d :=
    (PrimFloat.of_uint63 (Uint63.of_Z n) / PrimFloat.of_uint63 (Uint63.of_pos d))%float;
  fmul := PrimFloat.mul;
  fadd := PrimFloat.add;
  feq := PrimFloat.eqb;
|}.

Section MealShares.
Context {F : Type} `{PyFloat F}.

Definition MEAL_SHARES : dict string F :=
  [ ("breakfast"%string, of_decimal 25 100);
    ("lunch"%string, of_decimal 35 100);
    ("dinner"%string, of_decimal 30 100);
    ("snack"%string, of_decimal 10 100) ].

Definition get_meal_macro_targets (daily : MacroTargets F) (meal_type : string)
  : MacroTargets F :=
  let s := dict_get meal_type (of_decimal 25 100) MEAL_SHARES in
  mkMacroTargets
    (fmul (calories daily) s)
    (fmul (protein_g daily) s)
    (fmul (carbs_g daily) s)
    (fmul (fats_g daily) s).
End MealShares.

(* ===================================================================== *)
(** * recommender/bandit.py                                               *)
(* ===================================================================== *)

Definition vector : Type := list Q.
Definition matrix : Type := list (list Q).

(** The two numpy routines the bandit relies on. *)
Class LinAlg : Type := {
  np_inv : matrix -> matrix;
  np_sqrt : Q -> Q;
}.

Definition np_zeros (d : nat) : vector := repeat 0 d.

Definition np_eye (d : nat) : matrix :=
  map (fun i => map (fun j => if Nat.eqb i j then 1 else 0) (seq 0 d)) (seq 0 d).

Definition dot (u v : vector) : Q :=
  fold_left Qplus (zip_with Qmult u v) 0.

(** [M @ v] *)
Definition matvec (M : matrix) (v : vector) : vector :=
  map (fun row => dot row v) M.

(** [v.T @ M] *)
Definition vecmat (v : vector) (M : matrix) : vector :=
  fold_left (fun acc p => zip_with Qplus acc (map (Qmult (fst p)) (snd p)))
            (zip v M) (np_zeros (length v)).

(** [x @ x.T] for a column [x] *)
Definition outer (u v : vector) : matrix :=
  map (fun ui => map (fun vj => ui * vj) v) u.

Definition vec_add (u v : vector) : vector := zip_with Qplus u v.
Definition mat_add (M N : matrix) : matrix := zip_with vec_add M N.
Definition vec_scale (c : Q) (v : vector) : vector := map (Qmult c) v.

(** A catalog row, after the column normalisation of [MealRecommender.__init__].
    [Price_INR] is [None] when the row carries no label "Price (INR)", which
    is the case when the data set has no such column. *)
Record Dish : Type := mkDish {
  Dish_Name : string;
  Category : string;
  Veg_NonVeg : string;
  Calories_kcal : Q;
  Protein_g : Q;
  Carbs_g : Q;
  Fats_g : Q;
  Price_INR : option Q;
}.

Module ArmState.

Record t : Type := mk { A : matrix; b : vector }.

Definition create (d : nat) : t := mk (np_eye d) (np_zeros d).

(** The JSON form [{"A": ..., "b": ...}]. *)
Record data : Type := mk_data { data_A : list (list Q); data_b : list Q }.

Definition to_serializable (self : t) : data := mk_data (A self) (b self).
Definition from_serializable (dt : data) : t := mk (data_A dt) (data_b dt).

End ArmState.

Module LinUCBBandit.

Record t : Type := mk {
  d : nat;
  alpha : Q;
  state : dict string (dict string ArmState.t);
  likes : dict (string * string) Z;
  dislikes : dict (string * string) Z;
}.

(** [LinUCBBandit(d, alpha)] *)
Definition init (d : nat) (alpha : Q) : t := mk d alpha [] [] [].

Definition with_state (st : dict string (dict string ArmState.t)) (self : t) : t :=
  mk (d self) (alpha self) st (likes self) (dislikes self).
Definition with_likes (l : dict (string * string) Z) (self : t) : t :=
  mk (d self) (alpha self) (state self) l (dislikes self).
Definition with_dislikes (l : dict (string * string) Z) (self : t) : t :=
  mk (d self) (alpha self) (state self) (likes self) l.

(** [_get_user_arms]: creates the user's arm table when absent. The returned
    table is the object stored in [state]; [user_arms] reads it and [set_arm]
    writes through it. *)
Definition _get_user_arms (uid : string) (self : t) : t :=
  if dict_mem uid (state self) then self
  else with_state (dict_set uid [] (state self)) self.

Definition user_arms (uid : string) (self : t) : dict string ArmState.t :=
  dict_get uid [] (state self).

Definition set_arm (uid dish_id : string) (arm : ArmState.t) (self : t) : t :=
  with_state (dict_set uid (dict_set dish_id arm (user_arms uid self)) (state self)) self.

(** [if dish_id not in user_arms: user_arms[dish_id] = ArmState.create(self.d)] *)
Definition ensure_arm (uid dish_id : string) (self : t) : t :=
  if dict_mem dish_id (user_arms uid self) then self
  else set_arm uid dish_id (ArmState.create (d self)) self.

Definition get_arm (uid dish_id : string) (self : t) : ArmState.t :=
  dict_get dish_id (ArmState.create (d self)) (user_arms uid self).

Definition meal_types : list string :=
  ["breakfast"; "lunch"; "dinner"; "snack"]%string.

Definition build_context (profile : UserProfile) (daily_targets : MacroTargets Q)
    (meal_type : string) (dish_row : Dish) : result vector :=
  rbind (bmi profile) (fun bmi_v =>
    let bmi_norm := pymin (pymax ((bmi_v - 15) / 20) 0) 1 in
    let gender_flag := match gender profile with male => 1 | female => 0 end in
    let meal_onehot :=
      map (fun mt => if decide (meal_type = mt) then 1 else 0) meal_types in
    let cal := Calories_kcal dish_row in
    let prot := Protein_g dish_row in
    let carbs := Carbs_g dish_row in
    let fats := Fats_g dish_row in
    let cal_frac := cal / pymax 1 (calories daily_targets) in
    let prot_frac := prot / pymax 1 (protein_g daily_targets) in
    let carb_frac := carbs / pymax 1 (carbs_g daily_targets) in
    let fat_frac := fats / pymax 1 (fats_g daily_targets) in
    let bias := 1 in
    Ok ([bias; bmi_norm; gender_flag] ++ meal_onehot
        ++ [cal_frac; prot_frac; carb_frac; fat_frac])).

Definition rel_err (v t : Q) : Q :=
  if Qle_bool t 0 then 0 else Qabs (v - t) / t.

Definition compute_macro_fit (meal_targets : MacroTargets Q)
    (cal prot carbs fats : Q) : Q :=
  let errs :=
    [ rel_err cal (calories meal_targets);
      rel_err prot (protein_g meal_targets);
      rel_err carbs (carbs_g meal_targets);
      rel_err fats (fats_g meal_targets) ] in
  let mean_err := fold_left Qplus errs 0 / inject_Z (Z.of_nat (length errs)) in
  pymax 0 (1 - mean_err).

(** *** Selection *)

(** The two [continue] guards of the first loop of [select_dish]. *)
Definition passes_constraints (uid : string) (weekly_counts : dict string Z)
    (max_per_week : Z) (self : t) (row : Dish) : bool :=
  let dish_id := Dish_Name row in
  let key := (uid, dish_id) in
  if (0 <? dict_get key 0%Z (dislikes self))%Z then false
  else if (max_per_week <=? dict_get dish_id 0%Z weekly_counts)%Z then false
  else true.

Definition seen (uid dish_id : string) (self : t) : Z :=
  (dict_get (uid, dish_id) 0 (likes self) + dict_get (uid, dish_id) 0 (dislikes self))%Z.

(** [mean + alpha * var] *)
Definition ucb `{LinAlg} (alpha : Q) (arm : ArmState.t) (x : vector) : Q :=
  let A_inv := np_inv (ArmState.A arm) in
  let theta := matvec A_inv (ArmState.b arm) in
  let mean := dot theta x in
  let var := np_sqrt (dot (vecmat x A_inv) x) in
  mean + alpha * var.

(** The score of one candidate, with the bonus for unseen pairs. *)
Definition score `{LinAlg} (uid dish_id : string) (x : vector) (self : t) : Q :=
  let s := ucb (alpha self) (get_arm uid dish_id self) x in
  if (seen uid dish_id self =? 0)%Z then s + 0.05 else s.

(** The second loop of [select_dish]. *)
Fixpoint score_rows `{LinAlg} (profile : UserProfile) (daily_targets : MacroTargets Q)
    (meal_type : string) (rows : list Dish) (best_score : Q) (best_row : option Dish)
    (self : t) : t * result (option Dish) :=
  match rows with
  | [] => (self, Ok best_row)
  | row :: rows' =>
      let dish_id := Dish_Name row in
      match build_context profile daily_targets meal_type row with
      | Raise e => (self, Raise e)
      | Ok x =>
          let self := ensure_arm (user_id profile) dish_id self in
          let s := score (user_id profile) dish_id x self in
          if Qltb best_score s
          then score_rows profile daily_targets meal_type rows' s (Some row) self
          else score_rows profile daily_targets meal_type rows' best_score best_row self
      end
  end.

Definition select_dish `{LinAlg} (profile : UserProfile) (daily_targets : MacroTargets Q)
    (meal_type : string) (candidate_df : list Dish) (weekly_counts : dict string Z)
    (max_per_week : Z) (self : t) : t * result (option Dish) :=
  let self := _get_user_arms (user_id profile) self in
  let filtered_rows :=
    List.filter (passes_constraints (user_id profile) weekly_counts max_per_week self)
                candidate_df in
  match filtered_rows with
  | [] => (self, Ok None)
  | _ => score_rows profile daily_targets meal_type filtered_rows
                    (-1000000000) None self
  end.

(** *** Update *)

Definition fb_score (feedback : Z) : Q :=
  if (0 <? feedback)%Z then 1
  else if (feedback <? 0)%Z then 0
  else 0.5.

(** The counter side of the feedback branch. *)
Definition count_feedback (key : string * string) (feedback : Z) (self : t) : t :=
  if (0 <? feedback)%Z then
    with_likes (dict_set key (dict_get key 0 (likes self) + 1)%Z (likes self)) self
  else if (feedback <? 0)%Z then
    with_dislikes (dict_set key (dict_get key 0 (dislikes self) + 1)%Z (dislikes self)) self
  else self.

Definition reward (daily_targets : MacroTargets Q) (meal_type : string)
    (dish_row : Dish) (feedback : Z) : Q :=
  let meal_targets := get_meal_macro_targets daily_targets meal_type in
  let macro_fit :=
    compute_macro_fit meal_targets (Calories_kcal dish_row) (Protein_g dish_row)
                      (Carbs_g dish_row) (Fats_g dish_row) in
  let r := 0.7 * fb_score feedback + 0.3 * macro_fit in
  pymax 0 (pymin 1 r).

Definition update (profile : UserProfile) (daily_targets : MacroTargets Q)
    (meal_type : string) (dish_row : Dish) (feedback : Z) (self : t)
    : t * result unit :=
  let dish_id := Dish_Name dish_row in
  let key := (user_id profile, dish_id) in
  let self := _get_user_arms (user_id profile) self in
  let self := ensure_arm (user_id profile) dish_id self in
  let arm := get_arm (user_id profile) dish_id self in
  let self := count_feedback key feedback self in
  let r := reward daily_targets meal_type dish_row feedback in
  match build_context profile daily_targets meal_type dish_row with
  | Raise e => (self, Raise e)
  | Ok x =>
      let arm' :=
        ArmState.mk (mat_add (ArmState.A arm) (outer x x))
                    (vec_add (ArmState.b arm) (vec_scale r x)) in
      (set_arm (user_id profile) dish_id arm' self, Ok tt)
  end.

(** *** Persistence *)

(** The dictionary handed to [json.dump] and returned by [json.load]. *)
Record serializable : Type := mk_serializable {
  ser_d : nat;
  ser_alpha : Q;
  ser_state : dict string (dict string ArmState.data);
  ser_likes : dict string Z;
  ser_dislikes : dict string Z;
}.

(** The files: path to JSON content. *)
Definition filesystem : Type := dict string serializable.

(** [f"{u}||{d}"] *)
Definition flat_key (key : string * string) : string :=
  (fst key ++ "||" ++ snd key)%string.

Definition to_serializable (self : t) : serializable :=
  mk_serializable (d self) (alpha self)
    (dict_of_items
       (map (fun ua : string * dict string ArmState.t =>
               (fst ua,
                dict_of_items
                  (map (fun da : string * ArmState.t =>
                          (fst da, ArmState.to_serializable (snd da)))
                       (snd ua))))
            (state self)))
    (dict_of_items (map (fun kc => (flat_key (fst kc), snd kc)) (likes self)))
    (dict_of_items (map (fun kc => (flat_key (fst kc), snd kc)) (dislikes self))).

Definition save (path : string) (self : t) (fs : filesystem) : filesystem :=
  dict_set path (to_serializable self) fs.

(** [for k, v in counters.items(): u, d = k.split("||", 1); out[(u, d)] = v] *)
Fixpoint load_counters (items : list (string * Z)) (out : dict (string * string) Z)
    : result (dict (string * string) Z) :=
  match items with
  | [] => Ok out
  | (k, v) :: items' =>
      match split_once "||" k with
      | None => Raise ValueError
      | Some key => load_counters items' (dict_set key v out)
      end
  end.

Definition from_serializable (dt : serializable) : result t :=
  let bandit := init (ser_d dt) (ser_alpha dt) in
  let st :=
    fold_left
      (fun acc (ua : string * dict string ArmState.data) =>
         dict_set (fst ua)
           (dict_of_items
              (map (fun da : string * ArmState.data =>
                      (fst da, ArmState.from_serializable (snd da)))
                   (snd ua)))
           acc)
      (ser_state dt) (state bandit) in
  let bandit := with_state st bandit in
  rbind (load_counters (ser_likes dt) (likes bandit)) (fun l =>
    let bandit := with_likes l bandit in
    rbind (load_counters (ser_dislikes dt) (dislikes bandit)) (fun dl =>
      Ok (with_dislikes dl bandit))).

Definition load (path : string) (fs : filesystem) : result t :=
  match dict_lookup path fs with
  | None => Raise (FileNotFoundError path)
  | Some dt => from_serializable dt
  end.

End LinUCBBandit.

(* ===================================================================== *)
(** * recommender/meal_recommender.py                                     *)
(* ===================================================================== *)

Definition MEAL_ORDER : list string :=
  ["breakfast"; "lunch"; "dinner"; "snack"]%string.

Record MealEntry : Type := mkMealEntry {
  entry_dish_name : string;
  entry_calories_kcal : Q;
  entry_protein_g : Q;
  entry_carbs_g : Q;
  entry_fats_g : Q;
  entry_category : string;
  entry_veg_nonveg : string;
  entry_price_inr : Q;
}.

(** [{"day": ..., "meals": {...}}]; a [None] value is a null slot. *)
Record DayPlan : Type := mkDayPlan {
  day : Z;
  meals : dict string (option MealEntry);
}.

Record WeeklyPlan : Type := mkWeeklyPlan {
  plan_user_id : string;
  plan_daily_targets : MacroTargets Q;
  days : list DayPlan;
}.

Module MealRecommender.

(** [any(a in name for a in lower_allergies)] *)
Definition has_allergen (lower_allergies : list string) (name : string) : bool :=
  existsb (fun a => contains a name) lower_allergies.

Definition _filter_foods (food_df : list Dish) (profile : UserProfile)
    (meal_type : string) : list Dish :=
  let df := food_df in
  let df :=
    List.filter (fun row => bool_decide (lower (Category row) = lower meal_type)) df in
  let df :=
    match dietary_pref profile with
    | veg => List.filter (fun row => bool_decide (lower (Veg_NonVeg row) = "veg"%string)) df
    | non_veg => df
    end in
  let df :=
    match allergies profile with
    | None | Some [] => df
    | Some als =>
        let lower_allergies := map lower als in
        List.filter (fun row => negb (has_allergen lower_allergies (lower (Dish_Name row)))) df
    end in
  df.

(** The snapshot stored in the plan; the price is
    [float(row["Price (INR)"]) if "Price (INR)" in row.index else 0.0]. *)
Definition meal_entry (meal_type : string) (chosen_row : Dish) : MealEntry :=
  mkMealEntry (Dish_Name chosen_row)
    (Calories_kcal chosen_row) (Protein_g chosen_row)
    (Carbs_g chosen_row) (Fats_g chosen_row)
    meal_type (Veg_NonVeg chosen_row)
    (match Price_INR chosen_row with Some p => p | None => 0 end).

(** One iteration of the loop over [MEAL_ORDER]: the new bandit store and,
    unless [select_dish] raised, the new weekly counts and the value stored
    under [meal_type]. *)
Definition plan_slot `{LinAlg} (food_df : list Dish) (profile : UserProfile)
    (daily_targets : MacroTargets Q) (meal_type : string)
    (weekly_counts : dict string Z) (bandit : LinUCBBandit.t)
    : LinUCBBandit.t * result (dict string Z * option MealEntry) :=
  let candidates := _filter_foods food_df profile meal_type in
  match candidates with
  | [] => (bandit, Ok (weekly_counts, None))
  | _ =>
      match LinUCBBandit.select_dish profile daily_targets meal_type candidates
                                     weekly_counts 2 bandit with
      | (bandit, Raise e) => (bandit, Raise e)
      | (bandit, Ok None) => (bandit, Ok (weekly_counts, None))
      | (bandit, Ok (Some chosen_row)) =>
          let dish_id := Dish_Name chosen_row in
          let weekly_counts :=
            dict_set dish_id (dict_get dish_id 0 weekly_counts + 1)%Z weekly_counts in
          (bandit, Ok (weekly_counts, Some (meal_entry meal_type chosen_row)))
      end
  end.

(** The loop [for meal_type in MEAL_ORDER] of one day. *)
Fixpoint plan_meals `{LinAlg} (food_df : list Dish) (profile : UserProfile)
    (daily_targets : MacroTargets Q) (slots : list string)
    (weekly_counts : dict string Z) (day_meals : dict string (option MealEntry))
    (bandit : LinUCBBandit.t)
    : LinUCBBandit.t * result (dict string Z * dict string (option MealEntry)) :=
  match slots with
  | [] => (bandit, Ok (weekly_counts, day_meals))
  | meal_type :: slots' =>
      match plan_slot food_df profile daily_targets meal_type weekly_counts bandit with
      | (bandit, Raise e) => (bandit, Raise e)
      | (bandit, Ok (weekly_counts, entry)) =>
          plan_meals food_df profile daily_targets slots' weekly_counts
                     (dict_set meal_type entry day_meals) bandit
      end
  end.

(** The loop [for day_idx in range(7)]. *)
Fixpoint plan_days `{LinAlg} (food_df : list Dish) (profile : UserProfile)
    (daily_targets : MacroTargets Q) (day_idxs : list Z)
    (weekly_counts : dict string Z) (plan_days_acc : list DayPlan)
    (bandit : LinUCBBandit.t) : LinUCBBandit.t * result (list DayPlan) :=
  match day_idxs with
  | [] => (bandit, Ok plan_days_acc)
  | day_idx :: day_idxs' =>
      match plan_meals food_df profile daily_targets MEAL_ORDER weekly_counts [] bandit with
      | (bandit, Raise e) => (bandit, Raise e)
      | (bandit, Ok (weekly_counts, day_meals)) =>
          plan_days food_df profile daily_targets day_idxs' weekly_counts
                    (plan_days_acc ++ [mkDayPlan (day_idx + 1) day_meals]) bandit
      end
  end.

Definition range7 : list Z := [0; 1; 2; 3; 4; 5; 6]%Z.

Definition generate_weekly_plan `{LinAlg} (food_df : list Dish)
    (profile : UserProfile) (bandit : LinUCBBandit.t)
    : LinUCBBandit.t * result WeeklyPlan :=
  let daily_targets := compute_macro_targets profile in
  let weekly_counts : dict string Z := [] in
  match plan_days food_df profile daily_targets range7 weekly_counts [] bandit with
  | (bandit, Raise e) => (bandit, Raise e)
  | (bandit, Ok ds) =>
      (bandit, Ok (mkWeeklyPlan (user_id profile) daily_targets ds))
  end.

End MealRecommender.

(* ===================================================================== *)
(** * Catalog columns: MealRecommender.__init__ and enrich_csv.py         *)
(* ===================================================================== *)

(** [for kw in kws: if kw in n: ...]: some keyword occurs in [n]. *)
Definition any_keyword (kws : list string) (n : string) : bool :=
  existsb (fun kw => contains kw n) kws.

(** The classifiers that [MealRecommender.__init__] applies to the dish
    names when the data set lacks the column. *)
Module CatalogInit.

Definition BREAKFAST_KW : list string :=
  [ "oat"; "porridge"; "cereal"; "chai"; "tea"; "coffee"; "cocoa"; "egg"; "toast"; "bread";
    "sandwich"; "muffin"; "pancake"; "waffle"; "idli"; "dosa"; "upma"; "poha"; "paratha";
    "parantha"; "chilla"; "cheela"; "besan"; "moong"; "uttapam"; "thepla"; "cornflake";
    "milk"; "curd"; "yoghurt"; "yogurt"; "smoothie"; "juice" ]%string.

Definition SNACK_KW : list string :=
  [ "biscuit"; "cookie"; "cracker"; "cake"; "sweet"; "halwa"; "ladoo"; "barfi"; "kheer";
    "pudding"; "ice cream"; "dessert"; "chips"; "namkeen"; "bhujia"; "chakli"; "murukku";
    "popcorn"; "nut"; "peanut"; "cashew"; "almond"; "walnut"; "seed"; "fruit"; "banana";
    "apple"; "mango"; "orange"; "grape"; "berry"; "melon"; "chaat"; "pani puri"; "bhel";
    "samosa"; "pakora"; "fritter"; "drink"; "sharbat"; "lassi"; "buttermilk";
    "espresso"; "latte"; "cappuccino" ]%string.

Definition LUNCH_KW : list string :=
  [ "rice"; "pulao"; "biryani"; "khichdi"; "dal"; "rajma"; "chole"; "sabzi"; "curry";
    "sabji"; "bhaji"; "paneer"; "tofu"; "soya"; "chicken"; "fish"; "mutton"; "lamb";
    "prawn"; "shrimp"; "meat"; "salad"; "soup"; "wrap"; "burger"; "pizza"; "pasta";
    "noodle"; "bowl"; "thali"; "sambar"; "rasam"; "kadhi" ]%string.

Definition NV_KW : list string :=
  [ "chicken"; "fish"; "mutton"; "lamb"; "prawn"; "shrimp"; "meat"; "egg";
    "keema"; "seekh"; "beef"; "pork"; "sardine"; "tuna"; "salmon"; "bacon";
    "sausage"; "ham"; "crab"; "lobster"; "oyster" ]%string.

Definition _cat (name : string) : string :=
  let n := lower name in
  if any_keyword BREAKFAST_KW n then "breakfast"
  else if any_keyword SNACK_KW n then "snack"
  else if any_keyword LUNCH_KW n then "lunch"
  else "dinner".

Definition _veg (name : string) : string :=
  let n := lower name in
  if any_keyword NV_KW n then "Non-Veg" else "Veg".

(** The data set as it is read: the rows and which of the two columns it
    carries.  The fields [Category] and [Veg_NonVeg] of a row are read only
    when the column is there.  The renaming of column labels has no
    counterpart on typed rows. *)
Record food_frame : Type := mk_frame {
  has_Category : bool;
  has_Veg_NonVeg : bool;
  frame_rows : list Dish;
}.

Definition set_Category (c : string) (row : Dish) : Dish :=
  mkDish (Dish_Name row) c (Veg_NonVeg row) (Calories_kcal row) (Protein_g row)
         (Carbs_g row) (Fats_g row) (Price_INR row).

Definition set_Veg_NonVeg (v : string) (row : Dish) : Dish :=
  mkDish (Dish_Name row) (Category row) v (Calories_kcal row) (Protein_g row)
         (Carbs_g row) (Fats_g row) (Price_INR row).

(** [self.food_df] after [__init__]. *)
Definition food_df (frame : food_frame) : list Dish :=
  let rows := frame_rows frame in
  let rows :=
    if has_Category frame then rows
    else map (fun row => set_Category (_cat (Dish_Name row)) row) rows in
  let rows :=
    if has_Veg_NonVeg frame then rows
    else map (fun row => set_Veg_NonVeg (_veg (Dish_Name row)) row) rows in
  rows.

End CatalogInit.

(** The one-off script that writes the two columns into the data set. *)
Module EnrichCsv.

Definition BREAKFAST_KW : list string :=
  [ "oat"; "porridge"; "cereal"; "chai"; "tea"; "coffee"; "cocoa";
    "egg"; "toast"; "bread"; "sandwich"; "muffin"; "pancake"; "waffle";
    "idli"; "dosa"; "upma"; "poha"; "paratha"; "parantha"; "roti"; "chilla";
    "cheela"; "besan"; "moong"; "uttapam"; "thepla"; "cornflake";
    "milk"; "curd"; "yoghurt"; "yogurt"; "smoothie"; "juice" ]%string.

Definition LUNCH_KW : list string :=
  [ "rice"; "pulao"; "biryani"; "khichdi"; "dal"; "rajma"; "chole";
    "sabzi"; "curry"; "sabji"; "bhaji"; "paneer"; "tofu"; "soya";
    "chicken"; "fish"; "mutton"; "lamb"; "prawn"; "shrimp"; "meat";
    "salad"; "soup"; "wrap"; "burger"; "pizza"; "pasta"; "noodle";
    "bowl"; "thali"; "sambar"; "rasam"; "kadhi" ]%string.

Definition DINNER_KW : list string :=
  [ "dinner"; "roti"; "chapati"; "naan"; "puri"; "bhatura";
    "dal makhani"; "palak"; "mixed veg"; "aloo"; "gobhi"; "bhindi";
    "baingan"; "lauki"; "tinda"; "karela"; "methi";
    "keema"; "kofta"; "seekh"; "tandoor"; "grilled"; "roast" ]%string.

Definition SNACK_KW : list string :=
  [ "biscuit"; "cookie"; "cracker"; "cake"; "sweet"; "halwa";
    "ladoo"; "barfi"; "kheer"; "pudding"; "ice cream"; "dessert";
    "chips"; "namkeen"; "bhujia"; "chakli"; "murukku"; "popcorn";
    "nut"; "peanut"; "cashew"; "almond"; "walnut"; "seed"; "fruit";
    "banana"; "apple"; "mango"; "orange"; "grape"; "berry"; "melon";
    "chaat"; "pani puri"; "bhel"; "samosa"; "pakora"; "fritter";
    "drink"; "sharbat"; "lassi"; "buttermilk";
    "espreso"; "espresso"; "latte"; "cappuccino" ]%string.

Definition NON_VEG_KW : list string :=
  [ "chicken"; "fish"; "mutton"; "lamb"; "prawn"; "shrimp"; "meat";
    "egg"; "keema"; "seekh"; "beef"; "pork"; "sardine"; "tuna"; "salmon";
    "bacon"; "sausage"; "ham"; "crab"; "lobster"; "oyster" ]%string.

Definition classify_category (name : string) : string :=
  let n := lower name in
  if any_keyword BREAKFAST_KW n then "breakfast"
  else if any_keyword SNACK_KW n then "snack"
  else if any_keyword LUNCH_KW n then "lunch"
  else if any_keyword DINNER_KW n then "dinner"
  else "lunch".

Definition classify_diet (name : string) : string :=
  let n := lower name in
  if any_keyword NON_VEG_KW n then "Non-Veg" else "Veg".

End EnrichCsv.

(* ===================================================================== *)
(** * utils/nutrition_calculator.py                                       *)
(* ===================================================================== *)



Module NutritionCalculator.






End NutritionCalculator.

(* ===================================================================== *)
(** * app/body_analyzer.py                                                *)
(* ===================================================================== *)

(** Returns waist/hip, shoulder/waist, torso/leg and body aspect ratio. *)
Definition estimate_body_ratios (bmi : Q) : Q * Q * Q * Q :=
  if Qltb bmi 18.5 then (0.72, 1.45, 0.42, 3.8)
  else if Qltb bmi 25 then (0.78, 1.35, 0.44, 3.2)
  else if Qltb bmi 30 then (0.85, 1.20, 0.46, 2.8)
  else (0.92, 1.10, 0.48, 2.5).

(* ===================================================================== *)
(** * Vocabulary of the statements                                        *)
(* ===================================================================== *)

(** The sum, in slot order, of one field of the four per-meal targets. *)
Definition slot_sum {F} `{PyFloat F} (field : MacroTargets F -> F)
    (daily : MacroTargets F) : F :=
  fadd (fadd (fadd (field (get_meal_macro_targets daily "breakfast"))
                   (field (get_meal_macro_targets daily "lunch")))
             (field (get_meal_macro_targets daily "dinner")))
       (field (get_meal_macro_targets daily "snack")).

(** The calls a client can make on a store. *)
Inductive bandit_call : Type :=
  | CallSelect (profile : UserProfile) (daily_targets : MacroTargets Q)
      (meal_type : string) (candidate_df : list Dish)
      (weekly_counts : dict string Z) (max_per_week : Z)
  | CallUpdate (profile : UserProfile) (daily_targets : MacroTargets Q)
      (meal_type : string) (dish_row : Dish) (feedback : Z).

Definition run_call `{LinAlg} (c : bandit_call) (self : LinUCBBandit.t)
    : LinUCBBandit.t :=
  match c with
  | CallSelect p dt mt df wc mx => fst (LinUCBBandit.select_dish p dt mt df wc mx self)
  | CallUpdate p dt mt row fb => fst (LinUCBBandit.update p dt mt row fb self)
  end.

Definition run_calls `{LinAlg} (cs : list bandit_call) (self : LinUCBBandit.t)
    : LinUCBBandit.t :=
  fold_left (fun s c => run_call c s) cs self.

(** A call that gives no like or dislike to the pair [(uid, dish_id)]. *)
Definition neutral_for (uid dish_id : string) (c : bandit_call) : Prop :=
  match c with
  | CallSelect _ _ _ _ _ _ => True
  | CallUpdate p _ _ row fb =>
      (user_id p, Dish_Name row) <> (uid, dish_id) \/ fb = 0%Z
  end.

(** The non-null entries of a plan, and how often a dish occurs in them. *)
Definition day_entries (dp : DayPlan) : list MealEntry :=
  omap snd (meals dp).

Definition plan_entries (plan : WeeklyPlan) : list MealEntry :=
  concat (map day_entries (days plan)).

Definition occurrences (name : string) (entries : list MealEntry) : nat :=
  length (List.filter (fun e => bool_decide (entry_dish_name e = name)) entries).



(** A string without the character of the counter-key separator. *)
Fixpoint pipe_free (s : string) : bool :=
  match s with
  | EmptyString => true
  | String c s' => negb (Ascii.eqb c "|") && pipe_free s'
  end.

(** The representation invariant of the dictionaries of a store: keys are
    unique at every level. *)
Definition store_wf (s : LinUCBBandit.t) : Prop :=
  NoDup (dict_keys (LinUCBBandit.state s)) /\
  Forall (fun ua => NoDup (dict_keys (snd ua))) (LinUCBBandit.state s) /\
  NoDup (dict_keys (LinUCBBandit.likes s)) /\
  NoDup (dict_keys (LinUCBBandit.dislikes s)).

(** No user id of a counter key contains the separator character. *)
Definition counter_ids_pipe_free (s : LinUCBBandit.t) : Prop :=
  Forall (fun kc => pipe_free (fst (fst kc)) = true) (LinUCBBandit.likes s) /\
  Forall (fun kc => pipe_free (fst (fst kc)) = true) (LinUCBBandit.dislikes s).

(** Two stores that differ in their arms only. *)
Definition same_counters (s s' : LinUCBBandit.t) : Prop :=
  LinUCBBandit.likes s' = LinUCBBandit.likes s /\
  LinUCBBandit.dislikes s' = LinUCBBandit.dislikes s /\
  LinUCBBandit.d s' = LinUCBBandit.d s /\
  LinUCBBandit.alpha s' = LinUCBBandit.alpha s.

(** The item maps of the comprehensions in [save] and [load]. *)
Definition flatten (kc : string * string * Z) : string * Z :=
  (LinUCBBandit.flat_key (fst kc), snd kc).
Definition arms_out (da : string * ArmState.t) : string * ArmState.data :=
  (fst da, ArmState.to_serializable (snd da)).
Definition arms_in (da : string * ArmState.data) : string * ArmState.t :=
  (fst da, ArmState.from_serializable (snd da)).

(** The sums of four floats in every order and bracketing. *)
Definition sums_in_any_order {F} `{PyFloat F} (a b c d : F) : list F :=
  let add := fadd in
  [ add (add (add a b) c) d; add (add (add a b) d) c;
    add (add (add a c) b) d; add (add (add a c) d) b;
    add (add (add a d) b) c; add (add (add a d) c) b;
    add (add (add b c) a) d; add (add (add b c) d) a;
    add (add (add b d) a) c; add (add (add b d) c) a;
    add (add (add c d) a) b; add (add (add c d) b) a;
    add (add a b) (add c d); add (add a c) (add b d); add (add a d) (add b c) ].

(** The arm stored for a pair, if any. *)
Definition arm_of (uid dish_id : string) (s : LinUCBBandit.t) : option ArmState.t :=
  dict_lookup dish_id (LinUCBBandit.user_arms uid s).

(** [s'] has the counters and parameters of [s], every arm of [s] as it was,
    and beyond those only arms in their initial state. *)
Definition only_fresh_arms_added (s s' : LinUCBBandit.t) : Prop :=
  same_counters s s' /\
  forall uid dish_id,
    match arm_of uid dish_id s with
    | Some arm => arm_of uid dish_id s' = Some arm
    | None =>
        arm_of uid dish_id s' = None \/
        arm_of uid dish_id s' = Some (ArmState.create (LinUCBBandit.d s))
    end.

(** How many calls of a list give the pair a like ([positive = true]) or a
    dislike ([positive = false]). *)
Definition feedback_count (positive : bool) (key : string * string)
    (cs : list bandit_call) : Z :=
  Z.of_nat
    (length
       (List.filter
          (fun c =>
             match c with
             | CallSelect _ _ _ _ _ _ => false
             | CallUpdate p _ _ row fb =>
                 bool_decide ((user_id p, Dish_Name row) = key)
                 && (if positive then (0 <? fb)%Z else (fb <? 0)%Z)
             end)
          cs)).

(** An arm of dimension [n]: [A] is [n] by [n], [b] has length [n]. *)
Definition arm_shape (n : nat) (arm : ArmState.t) : Prop :=
  length (ArmState.A arm) = n /\
  Forall (fun row => length row = n) (ArmState.A arm) /\
  length (ArmState.b arm) = n.

Definition store_shape (n : nat) (s : LinUCBBandit.t) : Prop :=
  LinUCBBandit.d s = n /\
  forall uid dish_id arm, arm_of uid dish_id s = Some arm -> arm_shape n arm.

(** The entry [M[i][j]], and symmetry of a matrix up to [==]. *)
Definition entry (M : matrix) (i j : nat) : option Q :=
  match M !! i with
  | Some row => row !! j
  | None => None
  end.

Definition symmetric (M : matrix) : Prop :=
  forall i j,
    match entry M i j, entry M j i with
    | Some a, Some b => a == b
    | None, None => True
    | _, _ => False
    end.

Definition store_symmetric (s : LinUCBBandit.t) : Prop :=
  forall uid dish_id arm, arm_of uid dish_id s = Some arm -> symmetric (ArmState.A arm).

(** Every key of a flattened counter table holds the separator. *)
Definition keys_have_separator (m : dict string Z) : bool :=
  forallb (fun kv => contains "||" (fst kv)) m.

(** "Approximately": within [tol] of the quoted figure. *)
Definition approx (tol x y : Q) : Prop := Qabs (x - y) <= tol.

(** A height of ordinary magnitude, between 1e-100 and 1e100 in absolute
    value: binary64 squares a hundredth of it without underflow or overflow. *)
Definition height_in_range (profile : UserProfile) : Prop :=
  1 # 10 ^ 100 <= Qabs (height_cm profile) /\
  Qabs (height_cm profile) <= inject_Z (10 ^ 100).

(** A store of the service: created with [d = 11] and then used through
    [select_dish] and [update] only. *)
Definition reachable_store `{LinAlg} (s : LinUCBBandit.t) : Prop :=
  exists alpha cs, s = run_calls cs (LinUCBBandit.init 11 alpha).


(* ===================================================================== *)
(** * Concrete inputs                                                     *)
(* ===================================================================== *)

(** The profile of the worked scenario; identity and diet do not matter. *)
Definition scenario_profile (uid : string) (pref : DietaryPref)
    (als : option (list string)) : UserProfile :=
  mkUserProfile uid 175 72 25 male moderate maintenance None None pref als.



(** A heavy person on a weight-loss goal, no overrides. *)
Definition heavy_profile : UserProfile :=
  mkUserProfile "u3" 165 140 60 female sedentary weight_loss None None veg None.

(** Daily targets with a calorie figure of one decimal, as [round(_, 1)]
    produces them; 1200.5 is a binary64 value. *)
Definition daily_1200_5 : MacroTargets float :=
  mkMacroTargets 1200.5%float 90%float 150%float 40%float.

(** Daily targets with a calorie figure of two decimals, as a
    [target_calories] override can carry. *)
Definition daily_1706_74 : MacroTargets float :=
  mkMacroTargets 1706.74%float 90%float 150%float 40%float.

(** A stand-in for the numpy routines with which the examples are run; the
    theorems hold for every instance.  It is exact on fresh arms (the
    inverse of the identity matrix is the identity). *)
Definition sample_linalg : LinAlg := {| np_inv := fun M => M; np_sqrt := fun q => q |}.

Definition alice : UserProfile := scenario_profile "alice" veg None.

Definition poha : Dish := mkDish "Poha" "breakfast" "Veg" 250 6 45 5 (Some 40).
Definition dal : Dish := mkDish "Dal Tadka" "lunch" "Veg" 180 9 24 5 (Some 60).
Definition pulao : Dish := mkDish "Veg Pulao" "lunch" "Veg" 210 5 38 4 None.
Definition khichdi : Dish := mkDish "Khichdi" "dinner" "Veg" 320 11 52 7 (Some 70).
Definition rajma : Dish := mkDish "Rajma" "lunch" "Veg" 240 12 30 6 (Some 80).
Definition chole : Dish := mkDish "Chole" "lunch" "Veg" 260 11 35 8 (Some 75).
Definition biryani : Dish := mkDish "Veg Biryani" "lunch" "Veg" 300 8 50 9 (Some 90).

(** A data set read without the category and diet columns. *)
Definition untagged_frame : CatalogInit.food_frame :=
  CatalogInit.mk_frame false false
    [ mkDish "Chicken Curry" "" "" 320 25 10 20 None;
      mkDish "Paneer Tikka" "" "" 260 14 8 18 None ].

(** The store as the service creates it, and after alice has disliked the
    lunch dish that a fresh store ranks first. *)
Definition fresh_store : LinUCBBandit.t := LinUCBBandit.init 11 0.4.

Definition alice_store : LinUCBBandit.t :=
  fst (LinUCBBandit.update alice (compute_macro_targets alice) "lunch" pulao (-1)
         fresh_store).

(** Calls that give the pair (alice, Dal Tadka) neutral feedback only. *)
Definition neutral_trace : list bandit_call :=
  [ CallUpdate alice (compute_macro_targets alice) "lunch" dal 0;
    CallSelect alice (compute_macro_targets alice) "lunch" [dal; pulao] [] 2;
    CallUpdate alice (compute_macro_targets alice) "lunch" pulao 1;
    CallUpdate alice (compute_macro_targets alice) "lunch" dal 0 ].

Definition catalog : list Dish := [poha; dal; pulao; khichdi].


(** A week planned for alice from the four-dish catalog. *)
Definition sample_run : LinUCBBandit.t * result WeeklyPlan :=
  MealRecommender.generate_weekly_plan (H := sample_linalg) catalog alice fresh_store.

Definition sample_plan : WeeklyPlan :=
  match snd sample_run with
  | Ok plan => plan
  | Raise _ => mkWeeklyPlan "" (compute_macro_targets alice) []
  end.

(** The first day of the sample week. *)
Definition sample_day1 : DayPlan := hd (mkDayPlan 0 []) (days sample_plan).

(** A data set with a price in every row and four lunch dishes, and a week
    planned for alice from it. *)
Definition priced_catalog : list Dish := [poha; dal; rajma; chole; biryani; khichdi].

Definition priced_run : LinUCBBandit.t * result WeeklyPlan :=
  MealRecommender.generate_weekly_plan (H := sample_linalg) priced_catalog alice
    fresh_store.

Definition priced_plan : WeeklyPlan :=
  match snd priced_run with
  | Ok plan => plan
  | Raise _ => mkWeeklyPlan "" (compute_macro_targets alice) []
  end.

Definition priced_day1 : DayPlan := hd (mkDayPlan 0 []) (days priced_plan).

(** A user whose id contains the separator of the flattened counter keys,
    and the store after that user has disliked one dish. *)
Definition team_user : UserProfile :=
  mkUserProfile "team||a" 170 70 25 male moderate maintenance None None veg None.

Definition team_store : LinUCBBandit.t :=
  fst (LinUCBBandit.update team_user (compute_macro_targets team_user) "lunch" dal (-1)
         fresh_store).

Definition reloaded_team_store : result LinUCBBandit.t :=
  LinUCBBandit.load "bandit.json" (LinUCBBandit.save "bandit.json" team_store []).

(* ===================================================================== *)
(** * Properties of the nutrition engine                                  *)
(* ===================================================================== *)

(** [lra] with the divisions by literals turned into products. *)
Ltac qlra := unfold Qdiv in *; cbn [Qinv Qnum Qden] in *; lra.

Lemma Qltb_spec (x y : Q) : reflect (x < y) (Qltb x y).
Proof.
  unfold Qltb. destruct (Qle_bool y x) eqn:E; constructor.
  - apply Qle_bool_iff in E. qlra.
  - assert (Hn : ~ y <= x) by (rewrite <- Qle_bool_iff; congruence). qlra.
Qed.

Lemma Qle_bool_spec (x y : Q) : reflect (x <= y) (Qle_bool x y).
Proof.
  destruct (Qle_bool x y) eqn:E; constructor.
  - now apply Qle_bool_iff.
  - rewrite <- Qle_bool_iff. congruence.
Qed.

(** Case analysis on every float comparison in the goal, innermost first. *)
Ltac no_comparison t :=
  lazymatch t with
  | context [Qltb _ _] => fail
  | context [Qle_bool _ _] => fail
  | _ => idtac
  end.

Ltac qcases :=
  repeat match goal with
    | |- context [Qltb ?x ?y] =>
        no_comparison x; no_comparison y; destruct (Qltb_spec x y)
    | |- context [Qle_bool ?x ?y] =>
        no_comparison x; no_comparison y; destruct (Qle_bool_spec x y)
    end.

Lemma pymax_ge_l (a b : Q) : a <= pymax a b.
Proof. unfold pymax. qcases; qlra. Qed.

Lemma pymax_ge_r (a b : Q) : b <= pymax a b.
Proof. unfold pymax. qcases; qlra. Qed.

Lemma pymax_lub (a b c : Q) : a <= c -> b <= c -> pymax a b <= c.
Proof. unfold pymax. qcases; qlra. Qed.

(** [round(x, 1)] does not go below a multiple of one tenth that [x] reaches. *)
Lemma round1_ge_tenths (k : Z) (x : Q) :
  inject_Z k / 10 <= x -> inject_Z k / 10 <= round1 x.
Proof.
  intros Hx.
  assert (Hk : (k <= Qfloor (x * 10))%Z).
  { rewrite <- (Qfloor_Z k). apply Qfloor_resp_le.
    revert Hx. generalize (inject_Z k). intros q Hq. qlra. }
  assert (H1 : inject_Z k <= inject_Z (Qfloor (x * 10))) by now rewrite <- Zle_Qle.
  assert (H2 : inject_Z k <= inject_Z (Qfloor (x * 10) + 1))
    by (rewrite <- Zle_Qle; lia).
  unfold round1. cbv zeta.
  revert H1 H2.
  generalize (inject_Z (Qfloor (x * 10) + 1)), (inject_Z (Qfloor (x * 10))), (inject_Z k).
  intros q1 q0 q H1 H2.
  destruct (Qltb _ (1 # 2)); [qlra|].
  destruct (Qltb (1 # 2) _); [qlra|].
  destruct (Z.even _); qlra.
Qed.

Lemma round1_nonneg (x : Q) : 0 <= x -> 0 <= round1 x.
Proof.
  intros Hx. assert (H : inject_Z 0 / 10 <= round1 x).
  { apply round1_ge_tenths. unfold inject_Z. qlra. }
  unfold inject_Z in H. qlra.
Qed.




(** C5, as stated, fails: the remaining calories are floored at 0 but protein
    and fat are not scaled down.  For the heavy weight-loss profile protein
    and fat alone need 2016 kcal while the daily calories are 1964.3. *)
Lemma carbs_budget_counterexample :
  ~ (protein_g (compute_macro_targets heavy_profile) * 4
     + fats_g (compute_macro_targets heavy_profile) * 9
     <= calories (compute_macro_targets heavy_profile)).
Proof. apply Qlt_not_le; vm_compute; reflexivity. Qed.

(** C5 (amended): for every profile the carbohydrate target of
    [compute_macro_targets] is non-negative. *)
Theorem carbs_never_negative (profile : UserProfile) :
  0 <= carbs_g (compute_macro_targets profile).
Proof.
  unfold compute_macro_targets. cbn [carbs_g].
  apply round1_nonneg.
  match goal with |- 0 <= pymax 0 ?r / 4 => pose proof (pymax_ge_l 0 r) end.
  qlra.
Qed.

(** When the calories do cover protein and fat, the three macros account for
    all of them (before rounding). *)
Lemma macros_exhaust_calories (daily_cals protein fats : Q) :
  4 * protein + 9 * fats <= daily_cals ->
  4 * protein + 9 * fats + 4 * (pymax 0 (daily_cals - 4 * protein - 9 * fats) / 4)
  == daily_cals.
Proof. intros Hle. unfold pymax. qcases; qlra. Qed.

(** C7, as stated, fails on the arithmetic the code runs: in binary64 the
    shares 0.35, 0.30 and 0.10 are rounded and so are the four products and
    their sums.  For daily calories 1200.5 the slot targets are 300.125,
    420.17499999999995, 360.15 and 120.05000000000001, and their sum in slot
    order is 1200.4999999999998.  For daily calories 1706.74 the four slot
    targets sum to 1706.7399999999998 in whatever order they are added. *)
Lemma meal_shares_binary64_counterexample :
  feq (slot_sum calories daily_1200_5) (calories daily_1200_5) = false /\
  forallb (fun sum => negb (feq sum (calories daily_1706_74)))
    (sums_in_any_order
       (calories (get_meal_macro_targets daily_1706_74 "breakfast"))
       (calories (get_meal_macro_targets daily_1706_74 "lunch"))
       (calories (get_meal_macro_targets daily_1706_74 "dinner"))
       (calories (get_meal_macro_targets daily_1706_74 "snack"))) = true.
Proof. split; vm_compute; reflexivity. Qed.

(** The decimal literals of the share table, as doubles. *)
Lemma binary64_share_literals :
  map snd (MEAL_SHARES (F := float)) = [0.25; 0.35; 0.30; 0.10]%float.
Proof. vm_compute. reflexivity. Qed.

(** The share table in exact arithmetic; the shares add up to 1. *)
Lemma meal_share_values :
  dict_get "breakfast"%string (of_decimal 25 100) MEAL_SHARES = 25 # 100 /\
  dict_get "lunch"%string (of_decimal 25 100) MEAL_SHARES = 35 # 100 /\
  dict_get "dinner"%string (of_decimal 25 100) MEAL_SHARES = 30 # 100 /\
  dict_get "snack"%string (of_decimal 25 100) MEAL_SHARES = 10 # 100.
Proof. repeat split; reflexivity. Qed.

Lemma meal_shares_sum_to_one :
  fold_left Qplus (map snd (MEAL_SHARES (F := Q))) 0 == 1.
Proof. vm_compute. reflexivity. Qed.

(** C7 (amended): in exact arithmetic the four per-slot targets sum to the
    daily target, for each of calories, protein, carbohydrates and fats. *)
Theorem meal_shares_partition (daily : MacroTargets Q) :
  slot_sum calories daily == calories daily /\
  slot_sum protein_g daily == protein_g daily /\
  slot_sum carbs_g daily == carbs_g daily /\
  slot_sum fats_g daily == fats_g daily.
Proof.
  unfold slot_sum, get_meal_macro_targets. cbn [calories protein_g carbs_g fats_g].
  destruct meal_share_values as (-> & -> & -> & ->).
  cbn [fadd fmul exact_float].
  repeat split; ring.
Qed.

(** An unknown slot name falls back to the breakfast share. *)
Lemma meal_share_fallback (daily : MacroTargets Q) :
  get_meal_macro_targets daily "brunch" = get_meal_macro_targets daily "breakfast".
Proof. reflexivity. Qed.

(** C8, as stated, fails: the formula of [compute_bmr] gives 1693.75 for the
    scenario, more than 50 kcal away from the quoted 1756.6. *)
Lemma scenario_counterexample :
  ~ (approx 50 (compute_bmr (scenario_profile "u" veg None)) 1756.6 /\
     approx 50 (compute_tdee (scenario_profile "u" veg None)) 2722.7 /\
     approx 50 (calories (compute_macro_targets (scenario_profile "u" veg None))) 2723 /\
     protein_g (compute_macro_targets (scenario_profile "u" veg None)) == 129.6 /\
     fats_g (compute_macro_targets (scenario_profile "u" veg None)) == 57.6 /\
     approx 50 (carbs_g (compute_macro_targets (scenario_profile "u" veg None))) 421.55).
Proof.
  intros [Hbmr _]. revert Hbmr. apply Qlt_not_le. vm_compute. reflexivity.
Qed.

(** C8 (amended): for the scenario profile [compute_bmr] returns 1693.75, the
    TDEE is 1693.75 x 1.55 = 2625.3125, and [compute_macro_targets] returns
    calories 2625.3, protein 129.6 g, fats 57.6 g and carbohydrates 397.1 g. *)
Theorem scenario_values (uid : string) (pref : DietaryPref) (als : option (list string)) :
  compute_bmr (scenario_profile uid pref als) == 1693.75 /\
  compute_tdee (scenario_profile uid pref als) == 2625.3125 /\
  calories (compute_macro_targets (scenario_profile uid pref als)) == 2625.3 /\
  protein_g (compute_macro_targets (scenario_profile uid pref als)) == 129.6 /\
  fats_g (compute_macro_targets (scenario_profile uid pref als)) == 57.6 /\
  carbs_g (compute_macro_targets (scenario_profile uid pref als)) == 397.1.
Proof. repeat split; vm_compute; reflexivity. Qed.

(* ===================================================================== *)
(** * Facts about dictionaries                                            *)
(* ===================================================================== *)

Section DictFacts.
Context {K V : Type} `{EqDecision K}.
Implicit Types (m : dict K V) (k : K) (v : V).

Lemma dict_lookup_set_eq k v m : dict_lookup k (dict_set k v m) = Some v.
Proof.
  induction m as [|[k' v'] m IH]; simpl.
  - now rewrite decide_True.
  - destruct (decide (k = k')) as [->|Hne]; simpl.
    + now rewrite decide_True.
    + now rewrite decide_False.
Qed.

Lemma dict_lookup_set_ne k k' v m :
  k <> k' -> dict_lookup k' (dict_set k v m) = dict_lookup k' m.
Proof.
  intros Hne. induction m as [|[k0 v0] m IH]; simpl.
  - rewrite decide_False; [reflexivity | congruence].
  - destruct (decide (k = k0)) as [->|Hk]; simpl.
    + rewrite !decide_False; [reflexivity | congruence | congruence].
    + now rewrite IH.
Qed.

Lemma dict_get_set_eq k v dflt m : dict_get k dflt (dict_set k v m) = v.
Proof. unfold dict_get. now rewrite dict_lookup_set_eq. Qed.

Lemma dict_get_set_ne k k' v dflt m :
  k <> k' -> dict_get k' dflt (dict_set k v m) = dict_get k' dflt m.
Proof. intros Hne. unfold dict_get. now rewrite dict_lookup_set_ne. Qed.

Lemma dict_mem_set_eq k v m : dict_mem k (dict_set k v m) = true.
Proof. unfold dict_mem. now rewrite dict_lookup_set_eq. Qed.

(** Writing a key that is not there appends it. *)
Lemma dict_set_fresh k v m :
  dict_lookup k m = None -> dict_set k v m = m ++ [(k, v)].
Proof.
  induction m as [|[k' v'] m IH]; simpl; [reflexivity|].
  destruct (decide (k = k')); [discriminate|].
  intros Hm. now rewrite IH.
Qed.


End DictFacts.

(* ===================================================================== *)
(** * Properties of the bandit                                            *)
(* ===================================================================== *)

Module BanditFacts.
Import LinUCBBandit.

Lemma same_counters_refl s : same_counters s s.
Proof. now repeat split. Qed.

Lemma same_counters_trans s1 s2 s3 :
  same_counters s1 s2 -> same_counters s2 s3 -> same_counters s1 s3.
Proof. unfold same_counters. intuition congruence. Qed.

Lemma get_user_arms_counters uid s : same_counters s (_get_user_arms uid s).
Proof. unfold _get_user_arms. destruct (dict_mem _ _); now repeat split. Qed.

Lemma set_arm_counters uid dish arm s : same_counters s (set_arm uid dish arm s).
Proof. now repeat split. Qed.

Lemma ensure_arm_counters uid dish s : same_counters s (ensure_arm uid dish s).
Proof. unfold ensure_arm. destruct (dict_mem _ _); now repeat split. Qed.

Section Selection.
Context `{LinAlg}.

Lemma score_rows_counters profile daily meal rows best_score best_row s :
  same_counters s (fst (score_rows profile daily meal rows best_score best_row s)).
Proof.
  revert best_score best_row s.
  induction rows as [|row rows IH]; intros best_score best_row s; simpl.
  - apply same_counters_refl.
  - destruct (build_context _ _ _ _); simpl; [|apply same_counters_refl].
    destruct (Qltb _ _);
      (eapply same_counters_trans; [apply ensure_arm_counters | apply IH]).
Qed.

Lemma select_dish_counters profile daily meal df wc mx s :
  same_counters s (fst (select_dish profile daily meal df wc mx s)).
Proof.
  unfold select_dish.
  destruct (List.filter _ _) as [|row rows] eqn:E.
  - apply get_user_arms_counters.
  - eapply same_counters_trans; [apply get_user_arms_counters | apply score_rows_counters].
Qed.

(** The scoring loop returns the incoming best row or one of the rows. *)
Lemma score_rows_result profile daily meal rows best_score best_row s r :
  snd (score_rows profile daily meal rows best_score best_row s) = Ok (Some r) ->
  best_row = Some r \/ In r rows.
Proof.
  revert best_score best_row s.
  induction rows as [|row rows IH]; intros best_score best_row s; simpl.
  - intros [= ->]. now left.
  - destruct (build_context _ _ _ _); simpl; [|discriminate].
    destruct (Qltb _ _); intros Hr; apply IH in Hr as [Hr|Hr]; auto.
    injection Hr as ->. auto.
Qed.

(** A selected row is a candidate that passed both guards. *)
Lemma select_dish_passes profile daily meal df wc mx s r :
  snd (select_dish profile daily meal df wc mx s) = Ok (Some r) ->
  In r df /\
  (dict_get (user_id profile, Dish_Name r) 0 (dislikes s) <= 0)%Z /\
  (dict_get (Dish_Name r) 0 wc < mx)%Z.
Proof.
  unfold select_dish.
  destruct (List.filter _ _) as [|row rows] eqn:E; [discriminate|].
  intros Hr. apply score_rows_result in Hr as [Hr|Hr]; [discriminate|].
  rewrite <- E in Hr. apply filter_In in Hr as [Hin Hp].
  split; [exact Hin|].
  unfold passes_constraints in Hp.
  destruct (get_user_arms_counters (user_id profile) s) as (_ & -> & _) in Hp.
  destruct (Z.ltb_spec 0 (dict_get (user_id profile, Dish_Name r) 0%Z (dislikes s)));
    [discriminate|].
  destruct (Z.leb_spec mx (dict_get (Dish_Name r) 0%Z wc)); [discriminate|].
  split; lia.
Qed.


End Selection.

(** *** Counters under [update] *)

Lemma count_feedback_state key fb s : state (count_feedback key fb s) = state s.
Proof.
  unfold count_feedback. destruct (0 <? fb)%Z; [reflexivity|].
  destruct (fb <? 0)%Z; reflexivity.
Qed.

Lemma update_likes profile daily meal row fb s :
  likes (fst (update profile daily meal row fb s))
  = likes (count_feedback (user_id profile, Dish_Name row) fb s).
Proof.
  unfold update.
  set (s1 := ensure_arm _ _ (_get_user_arms _ s)).
  assert (Hs1 : same_counters s s1).
  { eapply same_counters_trans; [apply get_user_arms_counters | apply ensure_arm_counters]. }
  destruct Hs1 as (Hl & Hd & _).
  assert (Hc : likes (count_feedback (user_id profile, Dish_Name row) fb s1)
               = likes (count_feedback (user_id profile, Dish_Name row) fb s)).
  { unfold count_feedback. destruct (0 <? fb)%Z; simpl; [now rewrite Hl|].
    destruct (fb <? 0)%Z; simpl; now rewrite ?Hl. }
  destruct (build_context _ _ _ _); simpl; exact Hc.
Qed.

Lemma update_dislikes profile daily meal row fb s :
  dislikes (fst (update profile daily meal row fb s))
  = dislikes (count_feedback (user_id profile, Dish_Name row) fb s).
Proof.
  unfold update.
  set (s1 := ensure_arm _ _ (_get_user_arms _ s)).
  assert (Hs1 : same_counters s s1).
  { eapply same_counters_trans; [apply get_user_arms_counters | apply ensure_arm_counters]. }
  destruct Hs1 as (Hl & Hd & _).
  assert (Hc : dislikes (count_feedback (user_id profile, Dish_Name row) fb s1)
               = dislikes (count_feedback (user_id profile, Dish_Name row) fb s)).
  { unfold count_feedback. destruct (0 <? fb)%Z; simpl; [now rewrite Hd|].
    destruct (fb <? 0)%Z; simpl; now rewrite ?Hd. }
  destruct (build_context _ _ _ _); simpl; exact Hc.
Qed.

Lemma update_params profile daily meal row fb s :
  d (fst (update profile daily meal row fb s)) = d s /\
  alpha (fst (update profile daily meal row fb s)) = alpha s.
Proof.
  unfold update.
  set (s1 := ensure_arm _ _ (_get_user_arms _ s)).
  assert (Hs1 : same_counters s s1).
  { eapply same_counters_trans; [apply get_user_arms_counters | apply ensure_arm_counters]. }
  destruct Hs1 as (_ & _ & Hd & Ha).
  assert (Hc : d (count_feedback (user_id profile, Dish_Name row) fb s1) = d s /\
               alpha (count_feedback (user_id profile, Dish_Name row) fb s1) = alpha s).
  { unfold count_feedback. destruct (0 <? fb)%Z; simpl; [now rewrite Hd, Ha|].
    destruct (fb <? 0)%Z; simpl; now rewrite ?Hd, ?Ha. }
  destruct (build_context _ _ _ _); simpl; exact Hc.
Qed.

(** A dislike counter never decreases under [count_feedback]. *)
Lemma count_feedback_dislikes_mono key key' fb s :
  (dict_get key' 0 (dislikes s)
   <= dict_get key' 0 (dislikes (count_feedback key fb s)))%Z.
Proof.
  unfold count_feedback. destruct (0 <? fb)%Z; simpl; [lia|].
  destruct (fb <? 0)%Z; simpl; [|lia].
  destruct (decide (key = key')) as [->|Hne].
  - rewrite dict_get_set_eq. lia.
  - rewrite dict_get_set_ne by exact Hne. lia.
Qed.

Lemma count_feedback_dislike key fb s :
  (fb < 0)%Z ->
  dict_get key 0%Z (dislikes (count_feedback key fb s))
  = (dict_get key 0 (dislikes s) + 1)%Z.
Proof.
  intros Hfb. unfold count_feedback.
  destruct (Z.ltb_spec 0 fb); [lia|].
  destruct (Z.ltb_spec fb 0); [|lia].
  simpl. now rewrite dict_get_set_eq.
Qed.

(** A call that is neutral for a pair leaves both of its counters alone. *)
Lemma count_feedback_neutral key key' fb s :
  key <> key' \/ fb = 0%Z ->
  dict_get key' 0%Z (likes (count_feedback key fb s)) = dict_get key' 0%Z (likes s) /\
  dict_get key' 0%Z (dislikes (count_feedback key fb s)) = dict_get key' 0%Z (dislikes s).
Proof.
  intros [Hne | ->]; [|now split].
  unfold count_feedback. destruct (0 <? fb)%Z; simpl.
  - now rewrite dict_get_set_ne.
  - destruct (fb <? 0)%Z; simpl; [|now split]. now rewrite dict_get_set_ne.
Qed.

Section Calls.
Context `{LinAlg}.

Lemma run_call_dislikes_mono c key s :
  (dict_get key 0 (dislikes s) <= dict_get key 0 (dislikes (run_call c s)))%Z.
Proof.
  destruct c as [p dt mt df wc mx | p dt mt row fb]; simpl.
  - destruct (select_dish_counters p dt mt df wc mx s) as (_ & -> & _). lia.
  - rewrite update_dislikes. apply count_feedback_dislikes_mono.
Qed.

Lemma run_calls_dislikes_mono cs key s :
  (dict_get key 0 (dislikes s) <= dict_get key 0 (dislikes (run_calls cs s)))%Z.
Proof.
  revert s. induction cs as [|c cs IH]; intros s; simpl; [lia|].
  etransitivity; [apply (run_call_dislikes_mono c) | apply IH].
Qed.

Lemma run_call_neutral uid dish_id c s :
  neutral_for uid dish_id c ->
  dict_get (uid, dish_id) 0%Z (likes (run_call c s))
    = dict_get (uid, dish_id) 0%Z (likes s) /\
  dict_get (uid, dish_id) 0%Z (dislikes (run_call c s))
    = dict_get (uid, dish_id) 0%Z (dislikes s).
Proof.
  destruct c as [p dt mt df wc mx | p dt mt row fb]; simpl; intros Hn.
  - destruct (select_dish_counters p dt mt df wc mx s) as (-> & -> & _). now split.
  - rewrite update_likes, update_dislikes. now apply count_feedback_neutral.
Qed.

Lemma run_calls_neutral uid dish_id cs s :
  Forall (neutral_for uid dish_id) cs ->
  dict_get (uid, dish_id) 0%Z (likes (run_calls cs s))
    = dict_get (uid, dish_id) 0%Z (likes s) /\
  dict_get (uid, dish_id) 0%Z (dislikes (run_calls cs s))
    = dict_get (uid, dish_id) 0%Z (dislikes s).
Proof.
  intros Hall. revert s.
  induction Hall as [|c cs Hc Hcs IH]; intros s; simpl; [now split|].
  destruct (IH (run_call c s)) as [-> ->]. now apply run_call_neutral.
Qed.

End Calls.
End BanditFacts.

(** After a dislike the counter of the pair is positive, in every store that
    a fresh one can reach. *)
Lemma dislike_counter_positive `{LinAlg} (d0 : nat) (alpha0 : Q)
    (before after : list bandit_call) (profile : UserProfile)
    (daily : MacroTargets Q) (meal : string) (dish : Dish) (fb : Z) :
  (fb < 0)%Z ->
  (0 < dict_get (user_id profile, Dish_Name dish) 0
         (LinUCBBandit.dislikes
            (run_calls after
               (fst (LinUCBBandit.update profile daily meal dish fb
                       (run_calls before (LinUCBBandit.init d0 alpha0)))))))%Z.
Proof.
  intros Hfb.
  set (key := (user_id profile, Dish_Name dish)).
  set (s0 := run_calls before (LinUCBBandit.init d0 alpha0)).
  set (s1 := fst (LinUCBBandit.update profile daily meal dish fb s0)).
  pose proof (BanditFacts.run_calls_dislikes_mono before key (LinUCBBandit.init d0 alpha0)) as H0.
  pose proof (BanditFacts.run_calls_dislikes_mono after key s1) as H1.
  assert (Hs1 : dict_get key 0%Z (LinUCBBandit.dislikes s1)
                = (dict_get key 0 (LinUCBBandit.dislikes s0) + 1)%Z).
  { unfold s1. rewrite BanditFacts.update_dislikes.
    now apply BanditFacts.count_feedback_dislike. }
  fold s0 in H0. change (dict_get key 0%Z (LinUCBBandit.dislikes (LinUCBBandit.init d0 alpha0)))
    with 0%Z in H0.
  lia.
Qed.

(** C1: once [update] has been called with feedback -1 for a user and a dish,
    no later [select_dish] for that user returns the dish, whatever calls
    come in between and whatever the candidates, targets, slot, weekly counts
    and scores are. *)
Theorem dislike_veto `{LinAlg} (d0 : nat) (alpha0 : Q)
    (before after : list bandit_call)
    (profile : UserProfile) (daily : MacroTargets Q) (meal : string) (dish : Dish)
    (profile' : UserProfile) (daily' : MacroTargets Q) (meal' : string)
    (candidates : list Dish) (weekly_counts : dict string Z) (max_per_week : Z)
    (row : Dish) :
  user_id profile' = user_id profile ->
  snd (LinUCBBandit.select_dish profile' daily' meal' candidates weekly_counts max_per_week
         (run_calls after
            (fst (LinUCBBandit.update profile daily meal dish (-1)
                    (run_calls before (LinUCBBandit.init d0 alpha0))))))
  = Ok (Some row) ->
  Dish_Name row <> Dish_Name dish.
Proof.
  intros Hu Hsel Hname.
  apply BanditFacts.select_dish_passes in Hsel as (_ & Hd & _).
  rewrite Hu, Hname in Hd.
  pose proof (dislike_counter_positive d0 alpha0 before after profile daily meal dish (-1)) as Hpos.
  lia.
Qed.

Lemma dislike_veto_witness :
  snd (LinUCBBandit.select_dish (H := sample_linalg) alice (compute_macro_targets alice)
         "lunch" [dal; pulao] [] 2 alice_store)
  = Ok (Some dal) /\
  Dish_Name dal <> Dish_Name pulao.
Proof.
  split; [vm_compute; reflexivity|].
  apply (dislike_veto (H := sample_linalg) 11 0.4 [] []
           alice (compute_macro_targets alice) "lunch" pulao
           alice (compute_macro_targets alice) "lunch" [dal; pulao] [] 2 dal);
    vm_compute; reflexivity.
Defined.

(** Without the dislike the same call returns the other dish. *)
Lemma fresh_store_selects_pulao :
  snd (LinUCBBandit.select_dish (H := sample_linalg) alice (compute_macro_targets alice)
         "lunch" [dal; pulao] [] 2 fresh_store)
  = Ok (Some pulao).
Proof. vm_compute. reflexivity. Qed.

(** C10: [update] with feedback 0 changes neither counter dictionary; hence
    along any sequence of calls that gives a pair nothing but neutral
    feedback the pair stays unseen, and its score in [select_dish] is the
    LinUCB value plus the bonus of 0.05. *)
Theorem neutral_feedback_keeps_bonus `{LinAlg} :
  (forall profile daily meal dish s,
     LinUCBBandit.likes (fst (LinUCBBandit.update profile daily meal dish 0 s))
       = LinUCBBandit.likes s /\
     LinUCBBandit.dislikes (fst (LinUCBBandit.update profile daily meal dish 0 s))
       = LinUCBBandit.dislikes s) /\
  (forall uid dish_id cs s x,
     Forall (neutral_for uid dish_id) cs ->
     LinUCBBandit.seen uid dish_id s = 0%Z ->
     LinUCBBandit.seen uid dish_id (run_calls cs s) = 0%Z /\
     LinUCBBandit.score uid dish_id x (run_calls cs s)
       = LinUCBBandit.ucb (LinUCBBandit.alpha (run_calls cs s))
           (LinUCBBandit.get_arm uid dish_id (run_calls cs s)) x + 0.05).
Proof.
  split.
  - intros profile daily meal dish s.
    rewrite BanditFacts.update_likes, BanditFacts.update_dislikes. now split.
  - intros uid dish_id cs s x Hall Hseen.
    assert (Hs : LinUCBBandit.seen uid dish_id (run_calls cs s) = 0%Z).
    { unfold LinUCBBandit.seen in *.
      destruct (BanditFacts.run_calls_neutral uid dish_id cs s Hall) as [-> ->].
      exact Hseen. }
    split; [exact Hs|].
    unfold LinUCBBandit.score. now rewrite Hs.
Qed.

Lemma neutral_feedback_keeps_bonus_witness :
  Forall (neutral_for "alice" "Dal Tadka") neutral_trace /\
  LinUCBBandit.seen "alice" "Dal Tadka"
    (run_calls (H := sample_linalg) neutral_trace fresh_store) = 0%Z.
Proof.
  assert (Hn : Forall (neutral_for "alice" "Dal Tadka") neutral_trace).
  { unfold neutral_trace.
    repeat (apply List.Forall_cons;
            [simpl; first [exact I | right; reflexivity | left; discriminate]|]).
    apply List.Forall_nil. }
  split; [exact Hn|].
  exact (proj1 (proj2 (neutral_feedback_keeps_bonus (H := sample_linalg))
                  "alice"%string "Dal Tadka"%string neutral_trace fresh_store []
                  Hn eq_refl)).
Defined.

(** *** The reward *)

Lemma rel_err_nonneg (v t : Q) : 0 <= LinUCBBandit.rel_err v t.
Proof.
  unfold LinUCBBandit.rel_err. destruct (Qle_bool_spec t 0) as [Ht|Ht]; [lra|].
  apply Qle_shift_div_l; [lra|].
  pose proof (Qabs_nonneg (v - t)). lra.
Qed.

Lemma compute_macro_fit_bounds (mt : MacroTargets Q) (cal prot carbs fats : Q) :
  0 <= LinUCBBandit.compute_macro_fit mt cal prot carbs fats <= 1.
Proof.
  unfold LinUCBBandit.compute_macro_fit. cbn [fold_left length Z.of_nat].
  pose proof (rel_err_nonneg cal (calories mt)).
  pose proof (rel_err_nonneg prot (protein_g mt)).
  pose proof (rel_err_nonneg carbs (carbs_g mt)).
  pose proof (rel_err_nonneg fats (fats_g mt)).
  change (inject_Z (Z.of_nat 4)) with 4.
  split; [apply pymax_ge_l|].
  apply pymax_lub; qlra.
Qed.

(** C6: for fixed targets, slot and dish the reward of [update] is strictly
    higher for feedback +1 than for 0, and for 0 than for -1. *)
Theorem reward_monotone_in_feedback (daily : MacroTargets Q) (meal : string) (dish : Dish) :
  LinUCBBandit.reward daily meal dish 0 < LinUCBBandit.reward daily meal dish 1 /\
  LinUCBBandit.reward daily meal dish (-1) < LinUCBBandit.reward daily meal dish 0.
Proof.
  unfold LinUCBBandit.reward.
  match goal with
  | |- context [LinUCBBandit.compute_macro_fit ?mt ?c ?p ?cb ?f] =>
      pose proof (compute_macro_fit_bounds mt c p cb f) as Hfit;
      set (fit := LinUCBBandit.compute_macro_fit mt c p cb f) in *; clearbody fit
  end.
  change (LinUCBBandit.fb_score 0) with 0.5.
  change (LinUCBBandit.fb_score 1) with 1.
  change (LinUCBBandit.fb_score (-1)) with 0.
  unfold pymax, pymin. split; qcases; qlra.
Qed.

(* ===================================================================== *)
(** * Properties of the weekly planner                                    *)
(* ===================================================================== *)

Module PlannerFacts.
Import MealRecommender.

Lemma occurrences_app name (l1 l2 : list MealEntry) :
  occurrences name (l1 ++ l2) = (occurrences name l1 + occurrences name l2)%nat.
Proof. unfold occurrences. now rewrite List.filter_app, length_app. Qed.

Lemma occurrences_meal_entry name meal_type row :
  occurrences name [meal_entry meal_type row]
  = if decide (Dish_Name row = name) then 1%nat else 0%nat.
Proof.
  unfold occurrences. simpl.
  destruct (decide (Dish_Name row = name)) as [Heq|Hne].
  - now rewrite bool_decide_eq_true_2.
  - now rewrite bool_decide_eq_false_2.
Qed.

Lemma occurrences_cons name (e : MealEntry) (l : list MealEntry) :
  occurrences name (e :: l) = (occurrences name [e] + occurrences name l)%nat.
Proof. exact (occurrences_app name [e] l). Qed.

(** Split the head off every non-singleton list under [occurrences]. *)
Ltac split_occurrences :=
  repeat match goal with
    | |- context [occurrences ?n (?e :: ?l)] =>
        lazymatch l with
        | [] => fail
        | _ => rewrite (occurrences_cons n e l)
        end
    end.

(** Storing a slot adds at most the stored entry to the day's entries. *)
Lemma occurrences_dict_set name (k : string) (v : option MealEntry)
    (m : dict string (option MealEntry)) :
  (occurrences name (omap snd (dict_set k v m))
   <= occurrences name (omap snd m) + occurrences name (option_list v))%nat.
Proof.
  induction m as [|[k' v'] m IH]; simpl.
  - destruct v; simpl; lia.
  - destruct (decide (k = k')) as [->|Hne]; simpl.
    + destruct v as [e|], v' as [e'|]; simpl; split_occurrences; lia.
    + destruct v' as [e'|]; simpl in *; [|exact IH].
      split_occurrences. unfold omap in IH. lia.
Qed.


Section Planner.
Context `{LinAlg}.
Variable food_df : list Dish.
Variable profile : UserProfile.
Variable daily : MacroTargets Q.

(** What one slot iteration can do. *)
Lemma plan_slot_spec meal_type wc bandit :
  same_counters bandit (fst (plan_slot food_df profile daily meal_type wc bandit)) /\
  match snd (plan_slot food_df profile daily meal_type wc bandit) with
  | Raise _ => True
  | Ok (wc', None) => wc' = wc
  | Ok (wc', Some e) =>
      exists row,
        In row (_filter_foods food_df profile meal_type) /\
        e = meal_entry meal_type row /\
        (dict_get (Dish_Name row) 0 wc < 2)%Z /\
        (dict_get (user_id profile, Dish_Name row) 0 (LinUCBBandit.dislikes bandit) <= 0)%Z /\
        wc' = dict_set (Dish_Name row) (dict_get (Dish_Name row) 0 wc + 1)%Z wc
  end.
Proof.
  unfold plan_slot.
  destruct (_filter_foods food_df profile meal_type) as [|c cs] eqn:Ef.
  - split; [apply BanditFacts.same_counters_refl | reflexivity].
  - pose proof (BanditFacts.select_dish_counters profile daily meal_type (c :: cs) wc 2 bandit) as Hc.
    pose proof (BanditFacts.select_dish_passes profile daily meal_type (c :: cs) wc 2 bandit) as Hp.
    destruct (LinUCBBandit.select_dish _ _ _ _ _ _ _) as [b' [[row|]|e]]; simpl in *.
    + split; [exact Hc|]. destruct (Hp row eq_refl) as (Hin & Hd & Hw).
      exists row. now repeat split.
    + now split.
    + now split.
Qed.

Lemma plan_slot_counts meal_type wc bandit wc' e :
  snd (plan_slot food_df profile daily meal_type wc bandit) = Ok (wc', e) ->
  (forall n, dict_get n 0 wc <= 2)%Z ->
  (forall n, dict_get n 0 wc' <= 2)%Z /\
  (forall n, Z.of_nat (occurrences n (option_list e)) + dict_get n 0 wc
             = dict_get n 0 wc')%Z.
Proof.
  intros Hr Hwc.
  destruct (plan_slot_spec meal_type wc bandit) as [_ Hs]. rewrite Hr in Hs.
  destruct e as [e|].
  - destruct Hs as (row & _ & -> & Hlt & _ & ->).
    split; intros n; simpl; rewrite ?occurrences_meal_entry;
      (destruct (decide (Dish_Name row = n)) as [<-|Hne];
       [rewrite dict_get_set_eq | rewrite dict_get_set_ne by exact Hne]);
      try lia; apply Hwc.
  - subst wc'. split; [exact Hwc|]. intros n. simpl. unfold occurrences. simpl. lia.
Qed.

Lemma plan_meals_counts slots wc day_meals bandit bandit' wc' day_meals' :
  plan_meals food_df profile daily slots wc day_meals bandit
    = (bandit', Ok (wc', day_meals')) ->
  (forall n, dict_get n 0 wc <= 2)%Z ->
  (forall n, dict_get n 0 wc' <= 2)%Z /\
  (forall n, Z.of_nat (occurrences n (omap snd day_meals')) + dict_get n 0 wc
             <= Z.of_nat (occurrences n (omap snd day_meals)) + dict_get n 0 wc')%Z.
Proof.
  revert wc day_meals bandit.
  induction slots as [|mt slots IH]; intros wc day_meals bandit; simpl.
  - intros [= <- <- <-] Hwc. split; [exact Hwc | intros n; lia].
  - pose proof (plan_slot_counts mt wc bandit) as Hs.
    destruct (plan_slot food_df profile daily mt wc bandit) as [b1 [[wc1 e]|err]];
      [|discriminate].
    intros Hrun Hwc. destruct (Hs wc1 e eq_refl Hwc) as [Hwc1 Hocc].
    destruct (IH _ _ _ Hrun Hwc1) as [Hwc' Hle].
    split; [exact Hwc'|]. intros n.
    pose proof (occurrences_dict_set n mt e day_meals).
    specialize (Hle n). specialize (Hocc n). lia.
Qed.

Lemma plan_days_counts day_idxs wc acc bandit bandit' ds :
  plan_days food_df profile daily day_idxs wc acc bandit = (bandit', Ok ds) ->
  (forall n, dict_get n 0 wc <= 2)%Z ->
  exists wc',
    (forall n, dict_get n 0 wc' <= 2)%Z /\
    (forall n, Z.of_nat (occurrences n (concat (map day_entries ds))) + dict_get n 0 wc
               <= Z.of_nat (occurrences n (concat (map day_entries acc)))
                  + dict_get n 0 wc')%Z.
Proof.
  revert wc acc bandit.
  induction day_idxs as [|i idxs IH]; intros wc acc bandit; cbn [plan_days].
  - intros [= <- <-] Hwc. exists wc. split; [exact Hwc | intros n; lia].
  - pose proof (plan_meals_counts MEAL_ORDER wc [] bandit) as Hm.
    destruct (plan_meals food_df profile daily MEAL_ORDER wc [] bandit)
      as [b1 [[wc1 meals1]|err]]; [|discriminate].
    intros Hrun Hwc. destruct (Hm _ _ _ eq_refl Hwc) as [Hwc1 Hocc].
    destruct (IH _ _ _ Hrun Hwc1) as (wc' & Hwc' & Hle).
    exists wc'. split; [exact Hwc'|]. intros n.
    specialize (Hle n). specialize (Hocc n).
    rewrite map_app, concat_app, occurrences_app in Hle. simpl in Hle.
    rewrite app_nil_r in Hle. unfold day_entries at 3 in Hle. simpl in Hle.
    simpl in Hocc. unfold occurrences at 2 in Hocc. simpl in Hocc. lia.
Qed.

(** *** Completion *)

Lemma bmi_ok : ~ height_cm profile == 0 -> exists v, bmi profile = Ok v.
Proof.
  intros Hh. unfold bmi, pydiv.
  destruct (Qeq_bool _ 0) eqn:E; [|eauto].
  apply Qeq_bool_iff in E. exfalso. apply Hh.
  apply Qmult_integral in E. destruct E as [E|E]; qlra.
Qed.

Lemma build_context_ok meal_type row :
  ~ height_cm profile == 0 ->
  exists x, LinUCBBandit.build_context profile daily meal_type row = Ok x.
Proof.
  intros Hh. unfold LinUCBBandit.build_context.
  destruct (bmi_ok Hh) as [v ->]. simpl. eauto.
Qed.






(** *** Shape of the plan *)








End Planner.
End PlannerFacts.

(** C3: in a plan returned by [generate_weekly_plan] no dish name occurs more
    than twice among the meal entries of the seven days. *)
Theorem weekly_repetition_cap `{LinAlg} (food_df : list Dish) (profile : UserProfile)
    (bandit bandit' : LinUCBBandit.t) (plan : WeeklyPlan) (name : string) :
  MealRecommender.generate_weekly_plan food_df profile bandit = (bandit', Ok plan) ->
  (occurrences name (plan_entries plan) <= 2)%nat.
Proof.
  unfold MealRecommender.generate_weekly_plan.
  destruct (MealRecommender.plan_days _ _ _ _ _ _ _) as [b1 [ds|err]] eqn:Hrun;
    [|discriminate].
  intros [= <- <-]. unfold plan_entries. simpl.
  apply PlannerFacts.plan_days_counts in Hrun as (wc' & Hwc' & Hle).
  - specialize (Hle name). specialize (Hwc' name).
    simpl in Hle. unfold occurrences at 2 in Hle. simpl in Hle.
    change (dict_get name 0%Z []) with 0%Z in Hle. lia.
  - intros n. change (dict_get n 0%Z []) with 0%Z. lia.
Qed.

Lemma weekly_repetition_cap_witness :
  sample_run = (fst sample_run, Ok sample_plan) /\
  (occurrences "Dal Tadka" (plan_entries sample_plan) <= 2)%nat.
Proof.
  assert (Hrun : sample_run = (fst sample_run, Ok sample_plan))
    by (vm_compute; reflexivity).
  split; [exact Hrun|].
  exact (weekly_repetition_cap (H := sample_linalg) catalog alice fresh_store
           (fst sample_run) sample_plan "Dal Tadka" Hrun).
Defined.

(** The sample week: lunch alternates between the two lunch dishes until
    both have reached the cap, then stays empty; there is no snack. *)
Lemma sample_plan_lunches :
  map (fun dp => dict_lookup "lunch"%string (meals dp)) (days sample_plan)
  = [ Some (Some (MealRecommender.meal_entry "lunch" pulao));
      Some (Some (MealRecommender.meal_entry "lunch" pulao));
      Some (Some (MealRecommender.meal_entry "lunch" dal));
      Some (Some (MealRecommender.meal_entry "lunch" dal));
      Some None; Some None; Some None ].
Proof. vm_compute. reflexivity. Qed.



(* ===================================================================== *)
(** * Properties of the persistence                                       *)
(* ===================================================================== *)

(** C4 at a failing input: the user "team||a" has disliked Dal Tadka.  The
    counter is saved under "team||a||Dal Tadka" and [load] splits that at the
    first separator, so the reloaded store holds the dislike for the pair
    ("team", "a||Dal Tadka"): the arms come back as they were, the dislike
    count of the pair is 0 instead of 1, and the dish is selected again. *)
Theorem save_load_separator_in_user_id :
  exists reloaded,
    reloaded_team_store = Ok reloaded /\
    LinUCBBandit.state reloaded = LinUCBBandit.state team_store /\
    dict_get ("team||a", "Dal Tadka")%string 0%Z (LinUCBBandit.dislikes team_store) = 1%Z /\
    dict_get ("team||a", "Dal Tadka")%string 0%Z (LinUCBBandit.dislikes reloaded) = 0%Z /\
    LinUCBBandit.dislikes reloaded = [(("team", "a||Dal Tadka")%string, 1%Z)] /\
    snd (LinUCBBandit.select_dish (H := sample_linalg) team_user
           (compute_macro_targets team_user) "lunch" [dal] [] 2 team_store) = Ok None /\
    snd (LinUCBBandit.select_dish (H := sample_linalg) team_user
           (compute_macro_targets team_user) "lunch" [dal] [] 2 reloaded) = Ok (Some dal).
Proof.
  eexists. split; [vm_compute; reflexivity|].
  repeat split; vm_compute; reflexivity.
Qed.

(** *** Where the round trip does hold *)

Module PersistenceFacts.
Import LinUCBBandit.

Section Items.
Context {K V : Type} `{EqDecision K}.
Implicit Types (m l acc : dict K V).

Lemma dict_lookup_not_in (k : K) m : k ∉ dict_keys m -> dict_lookup k m = None.
Proof.
  induction m as [|[k' v'] m IH]; simpl; [reflexivity|].
  intros Hk. apply not_elem_of_cons in Hk as [Hne Hk].
  rewrite decide_False by exact Hne. now apply IH.
Qed.

Lemma dict_keys_app m l : dict_keys (m ++ l) = dict_keys m ++ dict_keys l.
Proof. unfold dict_keys. apply map_app. Qed.

(** Inserting items with new, pairwise distinct keys appends them in order. *)
Lemma fold_set_append l acc :
  NoDup (dict_keys acc ++ dict_keys l) ->
  fold_left (fun a kv => dict_set (fst kv) (snd kv) a) l acc = acc ++ l.
Proof.
  revert acc. induction l as [|[k v] l IH]; intros acc Hnd; simpl.
  - now rewrite app_nil_r.
  - assert (Hk : k ∉ dict_keys acc).
    { simpl in Hnd. apply NoDup_app in Hnd as (_ & Hdisj & _).
      intros Hin. apply (Hdisj k Hin). now left. }
    rewrite (dict_set_fresh k v acc) by now apply dict_lookup_not_in.
    rewrite IH.
    + now rewrite <- app_assoc.
    + rewrite dict_keys_app. simpl. now rewrite <- app_assoc.
Qed.

Lemma dict_of_items_nodup l : NoDup (dict_keys l) -> dict_of_items l = l.
Proof. intros Hnd. unfold dict_of_items. now rewrite fold_set_append. Qed.

End Items.

Lemma prefix_sep_pipe_free (c : ascii) (s : string) :
  Ascii.eqb c "|" = false -> String.prefix "||" (String c s) = false.
Proof.
  intros Hc.
  change (String.prefix "||" (String c s))
    with (if ascii_dec "|" c then String.prefix "|" s else false).
  destruct (ascii_dec "|" c) as [<-|Hne]; [discriminate|reflexivity].
Qed.

(** The flattened key splits back into its pair when the user id holds no
    separator character. *)
Lemma split_once_flat_key (u dish : string) :
  pipe_free u = true -> split_once "||" (flat_key (u, dish)) = Some (u, dish).
Proof.
  unfold flat_key. simpl fst. simpl snd.
  induction u as [|c u IH]; intros Hu.
  - simpl. now destruct dish.
  - simpl in Hu. apply andb_prop in Hu as [Hc Hu]. apply negb_true_iff in Hc.
    change (String c u ++ "||" ++ dish)%string with (String c (u ++ "||" ++ dish)%string).
    unfold split_once; fold split_once.
    rewrite (prefix_sep_pipe_free c _ Hc). now rewrite (IH Hu).
Qed.

Lemma flat_key_inj (k1 k2 : string * string) :
  pipe_free (fst k1) = true -> pipe_free (fst k2) = true ->
  flat_key k1 = flat_key k2 -> k1 = k2.
Proof.
  destruct k1 as [u1 d1], k2 as [u2 d2]. simpl. intros H1 H2 Heq.
  pose proof (split_once_flat_key u1 d1 H1) as E1.
  pose proof (split_once_flat_key u2 d2 H2) as E2.
  rewrite Heq in E1. congruence.
Qed.

Lemma flatten_keys_nodup (l : dict (string * string) Z) :
  Forall (fun kc => pipe_free (fst (fst kc)) = true) l ->
  NoDup (dict_keys l) -> NoDup (dict_keys (map flatten l)).
Proof.
  intros Hpf. unfold dict_keys. rewrite map_map. simpl.
  induction Hpf as [|[k c] l Hk Hl IH]; simpl; intros Hnd; [constructor|].
  apply NoDup_cons in Hnd as [Hin Hnd]. apply NoDup_cons. split; [|now apply IH].
  intros Hfl. apply Hin. apply list_elem_of_fmap in Hfl as ([k' c'] & Heq & Hin').
  simpl in Heq. rewrite Forall_forall in Hl. specialize (Hl _ Hin').
  apply flat_key_inj in Heq; [|exact Hk|exact Hl]. subst k'.
  apply list_elem_of_fmap. now exists (k, c').
Qed.

Lemma load_counters_flat (l acc : dict (string * string) Z) :
  Forall (fun kc => pipe_free (fst (fst kc)) = true) l ->
  NoDup (dict_keys acc ++ dict_keys l) ->
  load_counters (map flatten l) acc = Ok (acc ++ l).
Proof.
  intros Hpf. revert acc.
  induction Hpf as [|[[u dish] c] l Hk Hl IH]; intros acc Hnd; simpl.
  - now rewrite app_nil_r.
  - simpl in Hk. rewrite (split_once_flat_key u dish Hk).
    assert (Hfresh : (u, dish) ∉ dict_keys acc).
    { simpl in Hnd. apply NoDup_app in Hnd as (_ & Hdisj & _).
      intros Hin. apply (Hdisj _ Hin). now left. }
    rewrite (dict_set_fresh (u, dish) c acc) by now apply dict_lookup_not_in.
    rewrite IH.
    + now rewrite <- app_assoc.
    + rewrite dict_keys_app. simpl. now rewrite <- app_assoc.
Qed.

(** A counter dictionary survives flattening and loading. *)
Lemma counters_roundtrip (l : dict (string * string) Z) :
  Forall (fun kc => pipe_free (fst (fst kc)) = true) l ->
  NoDup (dict_keys l) ->
  load_counters (dict_of_items (map flatten l)) [] = Ok l.
Proof.
  intros Hpf Hnd.
  rewrite dict_of_items_nodup by now apply flatten_keys_nodup.
  now rewrite load_counters_flat.
Qed.

Lemma arm_roundtrip (arm : ArmState.t) :
  ArmState.from_serializable (ArmState.to_serializable arm) = arm.
Proof. now destruct arm. Qed.

Lemma arms_roundtrip (arms : dict string ArmState.t) :
  NoDup (dict_keys arms) ->
  dict_of_items (map arms_in (dict_of_items (map arms_out arms))) = arms.
Proof.
  intros Hnd.
  assert (Hk : dict_keys (map arms_out arms) = dict_keys arms).
  { unfold dict_keys. rewrite map_map. reflexivity. }
  rewrite (dict_of_items_nodup (map arms_out arms)) by now rewrite Hk.
  rewrite map_map.
  assert (Hid : map (fun x => arms_in (arms_out x)) arms = arms).
  { clear. induction arms as [|[k a] arms IH]; simpl; [reflexivity|].
    rewrite IH. unfold arms_in, arms_out. simpl. now rewrite arm_roundtrip. }
  rewrite Hid. now apply dict_of_items_nodup.
Qed.

Lemma state_roundtrip (st acc : dict string (dict string ArmState.t)) :
  Forall (fun ua => NoDup (dict_keys (snd ua))) st ->
  NoDup (dict_keys acc ++ dict_keys st) ->
  fold_left
    (fun a (ua : string * dict string ArmState.data) =>
       dict_set (fst ua) (dict_of_items (map arms_in (snd ua))) a)
    (map (fun ua : string * dict string ArmState.t =>
            (fst ua, dict_of_items (map arms_out (snd ua)))) st)
    acc
  = acc ++ st.
Proof.
  intros Hin. revert acc.
  induction Hin as [|[uid arms] st Harms Hst IH]; intros acc Hnd; simpl.
  - now rewrite app_nil_r.
  - simpl in Harms. rewrite (arms_roundtrip arms Harms).
    assert (Hfresh : uid ∉ dict_keys acc).
    { simpl in Hnd. apply NoDup_app in Hnd as (_ & Hdisj & _).
      intros Hi. apply (Hdisj _ Hi). now left. }
    rewrite (dict_set_fresh uid arms acc) by now apply dict_lookup_not_in.
    rewrite IH.
    + now rewrite <- app_assoc.
    + rewrite dict_keys_app. simpl. now rewrite <- app_assoc.
Qed.

End PersistenceFacts.

(** X15: the round trip is exact for every store whose dictionaries have
    unique keys and whose counter keys carry user ids that contain no
    character '|' at all: the loaded store is the saved one, with the same
    [d], [alpha], arms ([A], [b]) and counters. *)
Theorem save_load_roundtrip_pipe_free (path : string) (s : LinUCBBandit.t)
    (fs : LinUCBBandit.filesystem) :
  store_wf s ->
  counter_ids_pipe_free s ->
  LinUCBBandit.load path (LinUCBBandit.save path s fs) = Ok s.
Proof.
  intros (Hst & Harms & Hl & Hd) (Hpl & Hpd).
  unfold LinUCBBandit.load, LinUCBBandit.save. rewrite dict_lookup_set_eq.
  unfold LinUCBBandit.from_serializable, LinUCBBandit.to_serializable. simpl.
  assert (Hk : dict_keys
                 (map (fun ua : string * dict string ArmState.t =>
                         (fst ua, dict_of_items (map arms_out (snd ua))))
                      (LinUCBBandit.state s))
               = dict_keys (LinUCBBandit.state s)).
  { unfold dict_keys. rewrite map_map. reflexivity. }
  change (fun da : string * ArmState.t => (fst da, ArmState.to_serializable (snd da)))
    with arms_out.
  change (fun da : string * ArmState.data => (fst da, ArmState.from_serializable (snd da)))
    with arms_in.
  rewrite (PersistenceFacts.dict_of_items_nodup
             (map (fun ua : string * dict string ArmState.t =>
                     (fst ua, dict_of_items (map arms_out (snd ua))))
                  (LinUCBBandit.state s))) by now rewrite Hk.
  rewrite (PersistenceFacts.state_roundtrip (LinUCBBandit.state s) [] Harms Hst).
  change (fun kc : string * string * Z => (LinUCBBandit.flat_key (fst kc), snd kc))
    with flatten.
  rewrite (PersistenceFacts.counters_roundtrip _ Hpl Hl). simpl.
  rewrite (PersistenceFacts.counters_roundtrip _ Hpd Hd). simpl.
  now destruct s.
Qed.

Lemma save_load_roundtrip_pipe_free_witness :
  store_wf alice_store /\
  counter_ids_pipe_free alice_store /\
  LinUCBBandit.load "bandit.json" (LinUCBBandit.save "bandit.json" alice_store [])
  = Ok alice_store.
Proof.
  assert (Hwf : store_wf alice_store)
    by (repeat split; apply (bool_decide_unpack _); vm_compute; exact I).
  assert (Hpf : counter_ids_pipe_free alice_store)
    by (split; repeat (apply List.Forall_cons; [reflexivity|]); apply List.Forall_nil).
  split; [exact Hwf|]. split; [exact Hpf|].
  exact (save_load_roundtrip_pipe_free "bandit.json" alice_store [] Hwf Hpf).
Defined.

(* ===================================================================== *)
(** * Further properties of the nutrition engine                          *)
(* ===================================================================== *)


(** X1: the weight-loss target is at least 1200 kcal and the muscle-gain
    target is TDEE + 300; the weight-loss target stays at or below the
    maintenance target exactly when TDEE is at least 1200 - below that,
    weight loss prescribes more calories than maintenance. *)
Theorem goal_adjustment_order (tdee : Q) :
  1200 <= adjust_for_goal tdee weight_loss /\
  adjust_for_goal tdee muscle_gain == adjust_for_goal tdee maintenance + 300 /\
  (adjust_for_goal tdee weight_loss <= adjust_for_goal tdee maintenance <-> 1200 <= tdee).
Proof.
  unfold adjust_for_goal, pymax. qcases; repeat split; intros; qlra.
Qed.



(** X3: slot names are matched exactly: for every name other than the four
    of [MEAL_SHARES] (for instance a capitalised one) the per-meal targets
    are those of the 0.25 share, the same as breakfast. *)
Theorem unknown_slot_gets_breakfast_share (daily : MacroTargets Q) (meal_type : string) :
  ~ In meal_type MEAL_ORDER ->
  get_meal_macro_targets daily meal_type = get_meal_macro_targets daily "breakfast".
Proof.
  intros Hn. unfold get_meal_macro_targets.
  assert (Hd : dict_get meal_type (of_decimal 25 100) (MEAL_SHARES (F := Q))
               = of_decimal 25 100).
  { unfold dict_get, MEAL_SHARES, dict_lookup.
    repeat (destruct (decide _) as [->|_];
            [exfalso; apply Hn; unfold MEAL_ORDER; simpl; tauto|]).
    reflexivity. }
  rewrite Hd. reflexivity.
Qed.

Lemma unknown_slot_gets_breakfast_share_witness :
  ~ In "Lunch"%string MEAL_ORDER /\
  get_meal_macro_targets (compute_macro_targets alice) "Lunch"
  = get_meal_macro_targets (compute_macro_targets alice) "breakfast".
Proof.
  assert (Hn : ~ In "Lunch"%string MEAL_ORDER).
  { unfold MEAL_ORDER. simpl. intros [H|[H|[H|[H|[]]]]]; discriminate H. }
  split; [exact Hn|].
  exact (unknown_slot_gets_breakfast_share (compute_macro_targets alice) "Lunch" Hn).
Defined.

(* ===================================================================== *)
(** * Further properties of the bandit                                    *)
(* ===================================================================== *)

Lemma bmi_zero_height (profile : UserProfile) :
  height_cm profile == 0 -> bmi profile = Raise ZeroDivisionError.
Proof.
  intros Hh. unfold bmi, pydiv.
  assert (E : height_cm profile / 100 * (height_cm profile / 100) == 0)
    by (rewrite Hh; reflexivity).
  apply Qeq_bool_iff in E. now rewrite E.
Qed.

Lemma height_in_range_nonzero (profile : UserProfile) :
  height_in_range profile -> ~ height_cm profile == 0.
Proof.
  intros [Hlo _] E. rewrite E in Hlo. vm_compute in Hlo. now apply Hlo.
Qed.

Lemma build_context_raise_inv (profile : UserProfile) (daily : MacroTargets Q)
    (meal_type : string) (row : Dish) (e : exn) :
  LinUCBBandit.build_context profile daily meal_type row = Raise e ->
  e = ZeroDivisionError /\ height_cm profile == 0.
Proof.
  intros Hr. destruct (Qeq_dec (height_cm profile) 0) as [Hh|Hh].
  - unfold LinUCBBandit.build_context in Hr.
    rewrite (bmi_zero_height _ Hh) in Hr. simpl in Hr. now injection Hr as <-.
  - destruct (PlannerFacts.build_context_ok profile daily meal_type row Hh) as [x Hx].
    rewrite Hx in Hr. discriminate.
Qed.

Lemma context_length (profile : UserProfile) (daily : MacroTargets Q)
    (meal_type : string) (row : Dish) (x : vector) :
  LinUCBBandit.build_context profile daily meal_type row = Ok x -> length x = 11%nat.
Proof.
  unfold LinUCBBandit.build_context.
  destruct (bmi profile) as [v|e]; simpl; [|discriminate]. now intros [= <-].
Qed.

(** X4: [build_context] raises [ZeroDivisionError] when the profile's height
    is 0 and returns a vector when the height is of ordinary magnitude;
    weight, targets, slot and dish play no part in either. *)
Theorem build_context_outcome (profile : UserProfile) (daily : MacroTargets Q)
    (meal_type : string) (row : Dish) :
  (height_cm profile == 0 ->
   LinUCBBandit.build_context profile daily meal_type row = Raise ZeroDivisionError) /\
  (height_in_range profile ->
   exists x, LinUCBBandit.build_context profile daily meal_type row = Ok x).
Proof.
  split.
  - intros Hh. unfold LinUCBBandit.build_context.
    now rewrite (bmi_zero_height _ Hh).
  - intros Hr. apply PlannerFacts.build_context_ok.
    now apply height_in_range_nonzero.
Qed.

Lemma build_context_outcome_witness :
  height_in_range alice /\
  exists x, LinUCBBandit.build_context alice (compute_macro_targets alice) "lunch" dal = Ok x.
Proof.
  assert (Hr : height_in_range alice) by (split; vm_compute; discriminate).
  split; [exact Hr|].
  exact (proj2 (build_context_outcome alice (compute_macro_targets alice) "lunch" dal) Hr).
Defined.



Lemma rel_err_same (t : Q) : LinUCBBandit.rel_err t t == 0.
Proof.
  unfold LinUCBBandit.rel_err. destruct (Qle_bool t 0); [reflexivity|].
  assert (E : t - t == 0) by ring. rewrite E.
  unfold Qdiv. change (Qabs 0) with 0. ring.
Qed.

(** X6: the macro fit lies in [0, 1]; it is 1 for a dish whose four macros
    equal the meal targets, and also for any dish at all when the targets
    are 0, since a target that is not positive counts as no error. *)
Theorem macro_fit_range_and_perfect (mt : MacroTargets Q) (cal prot carbs fats : Q) :
  0 <= LinUCBBandit.compute_macro_fit mt cal prot carbs fats <= 1 /\
  LinUCBBandit.compute_macro_fit mt (calories mt) (protein_g mt) (carbs_g mt) (fats_g mt)
    == 1 /\
  LinUCBBandit.compute_macro_fit (mkMacroTargets 0 0 0 0) cal prot carbs fats == 1.
Proof.
  split; [apply compute_macro_fit_bounds|]. split.
  - pose proof (compute_macro_fit_bounds mt (calories mt) (protein_g mt) (carbs_g mt)
                  (fats_g mt)) as [_ Hle].
    apply Qle_antisym; [exact Hle|].
    unfold LinUCBBandit.compute_macro_fit. cbn [fold_left length Z.of_nat].
    change (inject_Z (Z.of_nat 4)) with 4.
    pose proof (rel_err_same (calories mt)) as E1.
    pose proof (rel_err_same (protein_g mt)) as E2.
    pose proof (rel_err_same (carbs_g mt)) as E3.
    pose proof (rel_err_same (fats_g mt)) as E4.
    match goal with |- 1 <= pymax 0 ?r => pose proof (pymax_ge_r 0 r) as Hr end.
    revert E1 E2 E3 E4 Hr.
    generalize (LinUCBBandit.rel_err (calories mt) (calories mt)),
               (LinUCBBandit.rel_err (protein_g mt) (protein_g mt)),
               (LinUCBBandit.rel_err (carbs_g mt) (carbs_g mt)),
               (LinUCBBandit.rel_err (fats_g mt) (fats_g mt)).
    intros e1 e2 e3 e4 E1 E2 E3 E4 Hr. qlra.
  - vm_compute. reflexivity.
Qed.

Lemma fb_score_sign (feedback : Z) :
  LinUCBBandit.fb_score feedback = LinUCBBandit.fb_score (Z.sgn feedback).
Proof. now destruct feedback. Qed.

(** X7: the reward lies in [0, 1]; it is at least 0.7 for a like and at most
    0.3 for a dislike; and of the feedback integer only the sign is used,
    in the reward as in the counters. *)
Theorem reward_range_and_sign (daily : MacroTargets Q) (meal : string) (dish : Dish)
    (feedback : Z) (key : string * string) (s : LinUCBBandit.t) :
  0 <= LinUCBBandit.reward daily meal dish feedback <= 1 /\
  7 # 10 <= LinUCBBandit.reward daily meal dish 1 /\
  LinUCBBandit.reward daily meal dish (-1) <= 3 # 10 /\
  LinUCBBandit.reward daily meal dish feedback
    = LinUCBBandit.reward daily meal dish (Z.sgn feedback) /\
  LinUCBBandit.count_feedback key feedback s
    = LinUCBBandit.count_feedback key (Z.sgn feedback) s.
Proof.
  assert (Hfb : 0 <= LinUCBBandit.fb_score feedback <= 1).
  { unfold LinUCBBandit.fb_score. destruct (0 <? feedback)%Z; [split; qlra|].
    destruct (feedback <? 0)%Z; split; qlra. }
  unfold LinUCBBandit.reward.
  rewrite <- (fb_score_sign feedback).
  match goal with
  | |- context [LinUCBBandit.compute_macro_fit ?mt ?c ?p ?cb ?f] =>
      pose proof (compute_macro_fit_bounds mt c p cb f) as Hfit;
      set (fit := LinUCBBandit.compute_macro_fit mt c p cb f) in *; clearbody fit
  end.
  change (LinUCBBandit.fb_score 1) with 1.
  change (LinUCBBandit.fb_score (-1)) with 0.
  revert Hfb. generalize (LinUCBBandit.fb_score feedback). intros fs Hfb.
  repeat split; try reflexivity; try (now destruct feedback);
    unfold pymax, pymin; qcases; qlra.
Qed.

Module ArmFacts.
Import LinUCBBandit.

Lemma dict_mem_false {K V} `{EqDecision K} (k : K) (m : dict K V) :
  dict_mem k m = false -> dict_lookup k m = None.
Proof. unfold dict_mem. now destruct (dict_lookup k m). Qed.

Lemma dict_get_not_mem {K V} `{EqDecision K} (k : K) (dflt : V) (m : dict K V) :
  dict_mem k m = false -> dict_get k dflt m = dflt.
Proof. intros E. unfold dict_get. now rewrite (dict_mem_false _ _ E). Qed.

Lemma user_arms_get_user_arms uid uid' s :
  user_arms uid (_get_user_arms uid' s) = user_arms uid s.
Proof.
  unfold _get_user_arms. destruct (dict_mem uid' (state s)) eqn:E; [reflexivity|].
  unfold user_arms. simpl. destruct (decide (uid' = uid)) as [->|Hne].
  - rewrite dict_get_set_eq. symmetry. now apply dict_get_not_mem.
  - now rewrite dict_get_set_ne.
Qed.

Lemma user_arms_set_arm uid uid' dish' arm s :
  user_arms uid (set_arm uid' dish' arm s)
  = if decide (uid' = uid) then dict_set dish' arm (user_arms uid s) else user_arms uid s.
Proof.
  unfold set_arm, user_arms at 1. simpl. destruct (decide (uid' = uid)) as [->|Hne].
  - now rewrite dict_get_set_eq.
  - now rewrite dict_get_set_ne.
Qed.

Lemma arm_of_get_user_arms uid dish uid' s :
  arm_of uid dish (_get_user_arms uid' s) = arm_of uid dish s.
Proof. unfold arm_of. now rewrite user_arms_get_user_arms. Qed.

Lemma arm_of_set_arm uid dish uid' dish' arm s :
  arm_of uid dish (set_arm uid' dish' arm s)
  = if decide ((uid', dish') = (uid, dish)) then Some arm else arm_of uid dish s.
Proof.
  unfold arm_of. rewrite user_arms_set_arm.
  destruct (decide (uid' = uid)) as [->|Hu].
  - destruct (decide (dish' = dish)) as [->|Hd].
    + rewrite decide_True by reflexivity. apply dict_lookup_set_eq.
    + rewrite decide_False by congruence. now apply dict_lookup_set_ne.
  - rewrite decide_False by congruence. reflexivity.
Qed.

Lemma arm_of_count_feedback uid dish key fb s :
  arm_of uid dish (count_feedback key fb s) = arm_of uid dish s.
Proof.
  unfold arm_of, user_arms. now rewrite BanditFacts.count_feedback_state.
Qed.

Lemma arm_of_ensure_arm uid dish uid' dish' s :
  arm_of uid dish (ensure_arm uid' dish' s)
  = match arm_of uid dish s with
    | Some arm => Some arm
    | None =>
        if decide ((uid', dish') = (uid, dish)) then Some (ArmState.create (d s)) else None
    end.
Proof.
  unfold ensure_arm. destruct (dict_mem dish' (user_arms uid' s)) eqn:E.
  - destruct (arm_of uid dish s) eqn:Ea; [reflexivity|].
    destruct (decide _) as [[= -> ->]|_]; [|reflexivity].
    unfold arm_of in Ea. unfold dict_mem in E. now rewrite Ea in E.
  - rewrite arm_of_set_arm. destruct (decide _) as [[= -> ->]|_].
    + assert (Ea : arm_of uid dish s = None)
        by (unfold arm_of; now apply dict_mem_false).
      now rewrite Ea.
    + now destruct (arm_of uid dish s).
Qed.

Lemma get_arm_arm_of uid dish s :
  get_arm uid dish s = default (ArmState.create (d s)) (arm_of uid dish s).
Proof. unfold get_arm, arm_of, dict_get. now destruct (dict_lookup _ _). Qed.

Lemma ensure_arm_present uid dish s :
  arm_of uid dish (ensure_arm uid dish s) = Some (get_arm uid dish s).
Proof.
  rewrite arm_of_ensure_arm, get_arm_arm_of.
  destruct (arm_of uid dish s); [reflexivity|]. now rewrite decide_True.
Qed.

Lemma only_fresh_refl s : only_fresh_arms_added s s.
Proof.
  split; [apply BanditFacts.same_counters_refl|].
  intros uid dish. destruct (arm_of uid dish s); auto.
Qed.

Lemma only_fresh_trans s1 s2 s3 :
  only_fresh_arms_added s1 s2 -> only_fresh_arms_added s2 s3 ->
  only_fresh_arms_added s1 s3.
Proof.
  intros [Hc1 H1] [Hc2 H2].
  split; [eapply BanditFacts.same_counters_trans; eassumption|].
  intros uid dish. specialize (H1 uid dish). specialize (H2 uid dish).
  destruct Hc1 as (_ & _ & Hd & _).
  destruct (arm_of uid dish s1) as [a|].
  - rewrite H1 in H2. exact H2.
  - destruct H1 as [H1|H1]; rewrite H1 in H2.
    + rewrite Hd in H2. exact H2.
    + now right.
Qed.

Lemma only_fresh_get_user_arms uid s : only_fresh_arms_added s (_get_user_arms uid s).
Proof.
  split; [apply BanditFacts.get_user_arms_counters|].
  intros u dish. rewrite arm_of_get_user_arms. destruct (arm_of u dish s); auto.
Qed.

Lemma only_fresh_ensure_arm uid dish s : only_fresh_arms_added s (ensure_arm uid dish s).
Proof.
  split; [apply BanditFacts.ensure_arm_counters|].
  intros u dsh. rewrite arm_of_ensure_arm.
  destruct (arm_of u dsh s); [reflexivity|]. destruct (decide _); auto.
Qed.

(** The score of a pair reads its arm, or a fresh one when there is none, so
    adding fresh arms does not change any score. *)
Lemma score_only_fresh `{LinAlg} uid dish x s s' :
  only_fresh_arms_added s s' -> score uid dish x s' = score uid dish x s.
Proof.
  intros [(Hl & Hdl & Hd & Ha) Harm]. unfold score, seen.
  rewrite Hl, Hdl, Ha. rewrite !get_arm_arm_of, Hd.
  specialize (Harm uid dish). destruct (arm_of uid dish s) as [a|].
  - now rewrite Harm.
  - destruct Harm as [-> | ->]; reflexivity.
Qed.

Section Scoring.
Context `{LinAlg}.

Lemma score_rows_only_fresh profile daily meal rows best_score best_row s :
  only_fresh_arms_added s
    (fst (score_rows profile daily meal rows best_score best_row s)).
Proof.
  revert best_score best_row s.
  induction rows as [|row rows IH]; intros best_score best_row s; simpl.
  - apply only_fresh_refl.
  - destruct (build_context _ _ _ _); simpl; [|apply only_fresh_refl].
    destruct (Qltb _ _);
      (eapply only_fresh_trans; [apply only_fresh_ensure_arm | apply IH]).
Qed.

(** The scoring loop: the final best score bounds the incoming one and the
    score of every row; the result is the incoming row when no row beat the
    incoming score, and otherwise a row whose score is the final one. *)
Lemma score_rows_max profile daily meal rows best_score best_row s res :
  snd (score_rows profile daily meal rows best_score best_row s) = Ok res ->
  exists final,
    best_score <= final /\
    (forall row, In row rows ->
       exists x, build_context profile daily meal row = Ok x /\
                 score (user_id profile) (Dish_Name row) x s <= final) /\
    ((res = best_row /\ final = best_score) \/
     (exists row x,
        In row rows /\ res = Some row /\
        build_context profile daily meal row = Ok x /\
        final = score (user_id profile) (Dish_Name row) x s /\
        best_score < final)).
Proof.
  revert best_score best_row s.
  induction rows as [|row rows IH]; intros best_score best_row s; simpl.
  - intros [= <-]. exists best_score. split; [lra|]. split; [intros ? []|]. now left.
  - destruct (build_context profile daily meal row) as [x|e] eqn:Hx; simpl; [|discriminate].
    pose proof (only_fresh_ensure_arm (user_id profile) (Dish_Name row) s) as Hfresh.
    rewrite (score_only_fresh _ _ _ _ _ Hfresh).
    set (sc := score (user_id profile) (Dish_Name row) x s).
    destruct (Qltb_spec best_score sc) as [Hlt|Hge]; intros Hres;
      apply IH in Hres as (final & Hle & Hall & Hsel); exists final.
    + split; [lra|]. split.
      * intros r [<-|Hin]; [exists x; split; [exact Hx | fold sc; lra]|].
        destruct (Hall r Hin) as (xr & Hxr & Hsr). exists xr. split; [exact Hxr|].
        now rewrite (score_only_fresh _ _ _ _ _ Hfresh) in Hsr.
      * right. destruct Hsel as [[-> ->]|(r & xr & Hin & -> & Hxr & -> & Hgt)].
        -- exists row, x. repeat split; auto.
        -- exists r, xr. rewrite (score_only_fresh _ _ _ _ _ Hfresh) in *.
           repeat split; auto. lra.
    + split; [exact Hle|]. split.
      * intros r [<-|Hin]; [exists x; split; [exact Hx | fold sc; lra]|].
        destruct (Hall r Hin) as (xr & Hxr & Hsr). exists xr. split; [exact Hxr|].
        now rewrite (score_only_fresh _ _ _ _ _ Hfresh) in Hsr.
      * destruct Hsel as [[-> ->]|(r & xr & Hin & -> & Hxr & -> & Hgt)]; [now left|].
        right. exists r, xr. rewrite (score_only_fresh _ _ _ _ _ Hfresh) in *.
        repeat split; auto.
Qed.

Lemma select_dish_only_fresh profile daily meal df wc mx s :
  only_fresh_arms_added s (fst (select_dish profile daily meal df wc mx s)).
Proof.
  unfold select_dish.
  destruct (List.filter _ _) as [|row rows].
  - apply only_fresh_get_user_arms.
  - eapply only_fresh_trans; [apply only_fresh_get_user_arms | apply score_rows_only_fresh].
Qed.

End Scoring.

Lemma update_other_arm profile daily meal row fb s uid dish :
  (uid, dish) <> (user_id profile, Dish_Name row) ->
  arm_of uid dish (fst (update profile daily meal row fb s)) = arm_of uid dish s.
Proof.
  intros Hne. unfold update.
  assert (Hbase : arm_of uid dish
                    (count_feedback (user_id profile, Dish_Name row) fb
                       (ensure_arm (user_id profile) (Dish_Name row)
                          (_get_user_arms (user_id profile) s)))
                  = arm_of uid dish s).
  { rewrite arm_of_count_feedback, arm_of_ensure_arm, arm_of_get_user_arms.
    destruct (arm_of uid dish s); [reflexivity|].
    rewrite decide_False; [reflexivity|congruence]. }
  destruct (build_context _ _ _ _); simpl; [|exact Hbase].
  rewrite arm_of_set_arm. rewrite decide_False by congruence. exact Hbase.
Qed.

Lemma update_own_arm profile daily meal row fb s :
  match snd (update profile daily meal row fb s) with
  | Ok _ =>
      exists x,
        build_context profile daily meal row = Ok x /\
        arm_of (user_id profile) (Dish_Name row) (fst (update profile daily meal row fb s))
        = Some (ArmState.mk
                  (mat_add (ArmState.A (get_arm (user_id profile) (Dish_Name row) s))
                           (outer x x))
                  (vec_add (ArmState.b (get_arm (user_id profile) (Dish_Name row) s))
                           (vec_scale (reward daily meal row fb) x)))
  | Raise e =>
      e = ZeroDivisionError /\ height_cm profile == 0 /\
      arm_of (user_id profile) (Dish_Name row) (fst (update profile daily meal row fb s))
      = Some (get_arm (user_id profile) (Dish_Name row) s)
  end.
Proof.
  unfold update.
  set (uid := user_id profile). set (dish_id := Dish_Name row).
  set (arm := get_arm uid dish_id s).
  set (s1 := ensure_arm uid dish_id (_get_user_arms uid s)).
  assert (Hpresent : arm_of uid dish_id s1 = Some arm).
  { subst s1. rewrite ensure_arm_present.
    rewrite get_arm_arm_of, arm_of_get_user_arms.
    destruct (BanditFacts.get_user_arms_counters uid s) as (_ & _ & -> & _).
    subst arm. now rewrite get_arm_arm_of. }
  assert (Harm : get_arm uid dish_id s1 = arm).
  { rewrite get_arm_arm_of, Hpresent. reflexivity. }
  rewrite Harm.
  destruct (build_context profile daily meal row) as [x|e] eqn:Hx; simpl.
  - exists x. split; [reflexivity|].
    rewrite arm_of_set_arm. now rewrite decide_True.
  - destruct (build_context_raise_inv _ _ _ _ _ Hx) as [-> Hh].
    split; [reflexivity|]. split; [exact Hh|].
    rewrite arm_of_count_feedback. exact Hpresent.
Qed.

End ArmFacts.

Lemma passes_constraints_iff (uid : string) (wc : dict string Z) (mx : Z)
    (s : LinUCBBandit.t) (row : Dish) :
  LinUCBBandit.passes_constraints uid wc mx s row = true <->
  (dict_get (uid, Dish_Name row) 0 (LinUCBBandit.dislikes s) <= 0)%Z /\
  (dict_get (Dish_Name row) 0 wc < mx)%Z.
Proof.
  unfold LinUCBBandit.passes_constraints.
  destruct (Z.ltb_spec 0 (dict_get (uid, Dish_Name row) 0%Z (LinUCBBandit.dislikes s)));
    [split; [discriminate|lia]|].
  destruct (Z.leb_spec mx (dict_get (Dish_Name row) 0%Z wc));
    [split; [discriminate|lia]|].
  split; [intros _; lia | reflexivity].
Qed.

(** X8: [select_dish] returns a highest-scoring eligible candidate: the
    selected row scores above the sentinel -1e9 and no candidate that is
    neither disliked nor capped scores higher; it returns no selection only
    when no eligible candidate scores above the sentinel.  Scores are those
    of the store before the call: the arms the call creates are fresh. *)
Theorem select_dish_argmax `{LinAlg} (profile : UserProfile) (daily : MacroTargets Q)
    (meal : string) (df : list Dish) (wc : dict string Z) (mx : Z)
    (s : LinUCBBandit.t) (res : option Dish) :
  snd (LinUCBBandit.select_dish profile daily meal df wc mx s) = Ok res ->
  forall r' x',
    In r' df ->
    (dict_get (user_id profile, Dish_Name r') 0 (LinUCBBandit.dislikes s) <= 0)%Z ->
    (dict_get (Dish_Name r') 0 wc < mx)%Z ->
    LinUCBBandit.build_context profile daily meal r' = Ok x' ->
    match res with
    | Some r =>
        exists x,
          LinUCBBandit.build_context profile daily meal r = Ok x /\
          - (1000000000) < LinUCBBandit.score (user_id profile) (Dish_Name r) x s /\
          LinUCBBandit.score (user_id profile) (Dish_Name r') x' s
          <= LinUCBBandit.score (user_id profile) (Dish_Name r) x s
    | None =>
        LinUCBBandit.score (user_id profile) (Dish_Name r') x' s <= - (1000000000)
    end.
Proof.
  unfold LinUCBBandit.select_dish.
  pose proof (ArmFacts.only_fresh_get_user_arms (user_id profile) s) as Hfresh.
  set (s0 := LinUCBBandit._get_user_arms (user_id profile) s) in *.
  set (rows := List.filter _ df).
  assert (Hrows : forall r', In r' df ->
            (dict_get (user_id profile, Dish_Name r') 0 (LinUCBBandit.dislikes s) <= 0)%Z ->
            (dict_get (Dish_Name r') 0 wc < mx)%Z -> In r' rows).
  { intros r' Hin Hd Hw. apply filter_In. split; [exact Hin|].
    apply passes_constraints_iff. destruct Hfresh as [(_ & -> & _) _]. now split. }
  destruct rows as [|c cs] eqn:Erows.
  - intros [= <-] r' x' Hin Hd Hw _. destruct (Hrows r' Hin Hd Hw).
  - intros Hres r' x' Hin Hd Hw Hx'.
    apply ArmFacts.score_rows_max in Hres as (final & Hle & Hall & Hsel).
    destruct (Hall r' (Hrows r' Hin Hd Hw)) as (y & Hy & Hsc).
    rewrite Hx' in Hy. injection Hy as <-.
    rewrite (ArmFacts.score_only_fresh _ _ _ _ _ Hfresh) in Hsc.
    destruct Hsel as [[-> ->]|(r & x & _ & -> & Hx & -> & Hgt)].
    + exact Hsc.
    + rewrite (ArmFacts.score_only_fresh _ _ _ _ _ Hfresh) in *.
      exists x. now repeat split.
Qed.

Lemma select_dish_argmax_witness :
  snd (LinUCBBandit.select_dish (H := sample_linalg) alice (compute_macro_targets alice)
         "lunch" [dal; pulao] [] 2 fresh_store) = Ok (Some pulao) /\
  forall x',
    LinUCBBandit.build_context alice (compute_macro_targets alice) "lunch" dal = Ok x' ->
    exists x,
      LinUCBBandit.build_context alice (compute_macro_targets alice) "lunch" pulao = Ok x /\
      - (1000000000) < LinUCBBandit.score (H := sample_linalg) "alice" "Veg Pulao" x fresh_store /\
      LinUCBBandit.score (H := sample_linalg) "alice" "Dal Tadka" x' fresh_store
      <= LinUCBBandit.score (H := sample_linalg) "alice" "Veg Pulao" x fresh_store.
Proof.
  assert (Hsel : snd (LinUCBBandit.select_dish (H := sample_linalg) alice
                        (compute_macro_targets alice) "lunch" [dal; pulao] [] 2 fresh_store)
                 = Ok (Some pulao)) by (vm_compute; reflexivity).
  split; [exact Hsel|]. intros x' Hx'.
  refine (select_dish_argmax (H := sample_linalg) alice (compute_macro_targets alice)
            "lunch" [dal; pulao] [] 2 fresh_store (Some pulao) Hsel dal x' _ _ _ Hx').
  - now left.
  - vm_compute. discriminate.
  - vm_compute. reflexivity.
Defined.

(** X9: [select_dish] learns nothing: likes, dislikes, [d] and [alpha] are
    unchanged, every arm that existed keeps its [A] and [b], and the arms it
    adds are in their initial state (identity and zero). *)
Theorem select_dish_learns_nothing `{LinAlg} (profile : UserProfile)
    (daily : MacroTargets Q) (meal : string) (df : list Dish) (wc : dict string Z)
    (mx : Z) (s : LinUCBBandit.t) (uid dish_id : string) :
  let s' := fst (LinUCBBandit.select_dish profile daily meal df wc mx s) in
  LinUCBBandit.likes s' = LinUCBBandit.likes s /\
  LinUCBBandit.dislikes s' = LinUCBBandit.dislikes s /\
  LinUCBBandit.d s' = LinUCBBandit.d s /\
  LinUCBBandit.alpha s' = LinUCBBandit.alpha s /\
  (forall arm, arm_of uid dish_id s = Some arm -> arm_of uid dish_id s' = Some arm) /\
  (arm_of uid dish_id s = None ->
   arm_of uid dish_id s' = None \/
   arm_of uid dish_id s' = Some (ArmState.mk (np_eye (LinUCBBandit.d s))
                                             (np_zeros (LinUCBBandit.d s)))).
Proof.
  intros s'.
  destruct (ArmFacts.select_dish_only_fresh profile daily meal df wc mx s)
    as [(Hl & Hdl & Hd & Ha) Harms].
  fold s' in Hl, Hdl, Hd, Ha, Harms. specialize (Harms uid dish_id).
  repeat split; try assumption.
  - intros arm Harm. now rewrite Harm in Harms.
  - intros Hnone. now rewrite Hnone in Harms.
Qed.

(** X10: [update] touches one arm: the arm of every other (user, dish) pair
    is what it was, [d] and [alpha] are unchanged, and so are the like and
    dislike counters of every other pair. *)
Theorem update_frame (profile : UserProfile) (daily : MacroTargets Q) (meal : string)
    (row : Dish) (feedback : Z) (s : LinUCBBandit.t) (uid dish_id : string) :
  (uid, dish_id) <> (user_id profile, Dish_Name row) ->
  let s' := fst (LinUCBBandit.update profile daily meal row feedback s) in
  arm_of uid dish_id s' = arm_of uid dish_id s /\
  dict_get (uid, dish_id) 0%Z (LinUCBBandit.likes s')
    = dict_get (uid, dish_id) 0%Z (LinUCBBandit.likes s) /\
  dict_get (uid, dish_id) 0%Z (LinUCBBandit.dislikes s')
    = dict_get (uid, dish_id) 0%Z (LinUCBBandit.dislikes s) /\
  LinUCBBandit.d s' = LinUCBBandit.d s /\
  LinUCBBandit.alpha s' = LinUCBBandit.alpha s.
Proof.
  intros Hne s'. subst s'.
  split; [now apply ArmFacts.update_other_arm|].
  rewrite BanditFacts.update_likes, BanditFacts.update_dislikes.
  destruct (BanditFacts.count_feedback_neutral (user_id profile, Dish_Name row)
              (uid, dish_id) feedback s) as [Hl Hd]; [left; congruence|].
  destruct (BanditFacts.update_params profile daily meal row feedback s) as [Hdd Ha].
  now repeat split.
Qed.

Lemma update_frame_witness :
  ("alice", "Dal Tadka")%string <> (user_id alice, Dish_Name pulao) /\
  arm_of "alice" "Dal Tadka" alice_store = arm_of "alice" "Dal Tadka" fresh_store.
Proof.
  assert (Hne : ("alice", "Dal Tadka")%string <> (user_id alice, Dish_Name pulao))
    by discriminate.
  split; [exact Hne|].
  exact (proj1 (update_frame alice (compute_macro_targets alice) "lunch" pulao (-1)
                  fresh_store "alice" "Dal Tadka" Hne)).
Defined.

(** X11: what [update] does to its own arm in a store of the service.  The
    like or dislike is counted in every case.  When the profile's height is 0
    the call raises [ZeroDivisionError] with the arm created but not trained.
    When the height is of ordinary magnitude the call returns and the arm
    becomes [A + x x^T], [b + reward x], starting from the stored arm or from
    a fresh one. *)
Theorem update_outcome `{LinAlg} (profile : UserProfile) (daily : MacroTargets Q)
    (meal : string) (row : Dish) (feedback : Z) (s : LinUCBBandit.t) :
  reachable_store s ->
  LinUCBBandit.likes (fst (LinUCBBandit.update profile daily meal row feedback s))
  = LinUCBBandit.likes
      (LinUCBBandit.count_feedback (user_id profile, Dish_Name row) feedback s) /\
  LinUCBBandit.dislikes (fst (LinUCBBandit.update profile daily meal row feedback s))
  = LinUCBBandit.dislikes
      (LinUCBBandit.count_feedback (user_id profile, Dish_Name row) feedback s) /\
  (height_cm profile == 0 ->
   snd (LinUCBBandit.update profile daily meal row feedback s) = Raise ZeroDivisionError /\
   arm_of (user_id profile) (Dish_Name row)
     (fst (LinUCBBandit.update profile daily meal row feedback s))
   = Some (LinUCBBandit.get_arm (user_id profile) (Dish_Name row) s)) /\
  (height_in_range profile ->
   exists x,
     LinUCBBandit.build_context profile daily meal row = Ok x /\
     snd (LinUCBBandit.update profile daily meal row feedback s) = Ok tt /\
     arm_of (user_id profile) (Dish_Name row)
       (fst (LinUCBBandit.update profile daily meal row feedback s))
     = Some (ArmState.mk
               (mat_add
                  (ArmState.A (LinUCBBandit.get_arm (user_id profile) (Dish_Name row) s))
                  (outer x x))
               (vec_add
                  (ArmState.b (LinUCBBandit.get_arm (user_id profile) (Dish_Name row) s))
                  (vec_scale (LinUCBBandit.reward daily meal row feedback) x)))).
Proof.
  intros _.
  split; [apply BanditFacts.update_likes|]. split; [apply BanditFacts.update_dislikes|].
  pose proof (ArmFacts.update_own_arm profile daily meal row feedback s) as Hown.
  split.
  - intros Hh.
    destruct (snd (LinUCBBandit.update profile daily meal row feedback s)) as [[]|e].
    + destruct Hown as (x & Hx & _). exfalso.
      unfold LinUCBBandit.build_context in Hx.
      rewrite (bmi_zero_height _ Hh) in Hx. discriminate Hx.
    + destruct Hown as (-> & _ & Harm). now split.
  - intros Hr. apply height_in_range_nonzero in Hr.
    destruct (snd (LinUCBBandit.update profile daily meal row feedback s)) as [[]|e].
    + destruct Hown as (x & Hx & Harm). exists x. now repeat split.
    + destruct Hown as (_ & Hh & _). contradiction.
Qed.

Lemma update_outcome_witness :
  reachable_store (H := sample_linalg) fresh_store /\
  height_in_range alice /\
  snd (LinUCBBandit.update alice (compute_macro_targets alice) "lunch" dal 1 fresh_store)
  = Ok tt.
Proof.
  assert (Hs : reachable_store (H := sample_linalg) fresh_store)
    by (exists 0.4, []; reflexivity).
  assert (Hr : height_in_range alice) by (split; vm_compute; discriminate).
  split; [exact Hs|]. split; [exact Hr|].
  destruct (proj2 (proj2 (proj2
              (update_outcome (H := sample_linalg) alice (compute_macro_targets alice)
                 "lunch" dal 1 fresh_store Hs))) Hr) as (x & _ & Hok & _).
  exact Hok.
Defined.

Lemma count_feedback_counters (key key' : string * string) (fb : Z) (s : LinUCBBandit.t) :
  dict_get key' 0%Z (LinUCBBandit.likes (LinUCBBandit.count_feedback key fb s))
  = (dict_get key' 0 (LinUCBBandit.likes s)
     + if bool_decide (key = key') && (0 <? fb)%Z then 1 else 0)%Z /\
  dict_get key' 0%Z (LinUCBBandit.dislikes (LinUCBBandit.count_feedback key fb s))
  = (dict_get key' 0 (LinUCBBandit.dislikes s)
     + if bool_decide (key = key') && (fb <? 0)%Z then 1 else 0)%Z.
Proof.
  unfold LinUCBBandit.count_feedback.
  destruct (Z.ltb_spec 0 fb) as [Hp|Hp].
  - destruct (Z.ltb_spec fb 0); [lia|]. simpl.
    rewrite andb_false_r, andb_true_r. split; [|lia].
    destruct (decide (key = key')) as [->|Hne].
    + rewrite dict_get_set_eq, bool_decide_eq_true_2 by reflexivity. reflexivity.
    + rewrite dict_get_set_ne, bool_decide_eq_false_2 by assumption. lia.
  - rewrite andb_false_r. destruct (Z.ltb_spec fb 0) as [Hn|Hn]; simpl.
    + rewrite andb_true_r. split; [lia|].
      destruct (decide (key = key')) as [->|Hne].
      * rewrite dict_get_set_eq, bool_decide_eq_true_2 by reflexivity. reflexivity.
      * rewrite dict_get_set_ne, bool_decide_eq_false_2 by assumption. lia.
    + rewrite andb_false_r. split; lia.
Qed.

(** X12: the counters count the feedback: after any sequence of calls the
    like counter of a pair has grown by the number of [update] calls for that
    pair with positive feedback, and the dislike counter by the number with
    negative feedback; neutral feedback and selections add nothing. *)
Theorem counters_count_feedback `{LinAlg} (key : string * string)
    (cs : list bandit_call) (s : LinUCBBandit.t) :
  dict_get key 0%Z (LinUCBBandit.likes (run_calls cs s))
  = (dict_get key 0 (LinUCBBandit.likes s) + feedback_count true key cs)%Z /\
  dict_get key 0%Z (LinUCBBandit.dislikes (run_calls cs s))
  = (dict_get key 0 (LinUCBBandit.dislikes s) + feedback_count false key cs)%Z.
Proof.
  revert s. induction cs as [|c cs IH]; intros s.
  - unfold feedback_count. simpl. split; lia.
  - change (run_calls (c :: cs) s) with (run_calls cs (run_call c s)).
    destruct (IH (run_call c s)) as [-> ->]. clear IH.
    unfold feedback_count. cbn [List.filter].
    destruct c as [p dt mt df wc mx | p dt mt row fb]; cbn [run_call].
    + destruct (BanditFacts.select_dish_counters p dt mt df wc mx s) as (-> & -> & _).
      split; reflexivity.
    + rewrite BanditFacts.update_likes, BanditFacts.update_dislikes.
      destruct (count_feedback_counters (user_id p, Dish_Name row) key fb s) as [-> ->].
      split.
      * destruct (bool_decide _ && (0 <? fb)%Z); cbn [length]; lia.
      * destruct (bool_decide _ && (fb <? 0)%Z); cbn [length]; lia.
Qed.

(** *** Shapes *)

Lemma create_shape (n : nat) : arm_shape n (ArmState.create n).
Proof.
  unfold arm_shape, ArmState.create, np_eye, np_zeros. simpl.
  rewrite length_map, length_seq, repeat_length. split; [reflexivity|].
  split; [|reflexivity].
  apply Forall_forall. intros row Hrow.
  apply list_elem_of_fmap in Hrow as (i & -> & _).
  now rewrite length_map, length_seq.
Qed.

Lemma trained_shape (n : nat) (arm : ArmState.t) (x : vector) (r : Q) :
  arm_shape n arm -> length x = n ->
  arm_shape n (ArmState.mk (mat_add (ArmState.A arm) (outer x x))
                           (vec_add (ArmState.b arm) (vec_scale r x))).
Proof.
  intros (HA & Hrows & Hb) Hx. unfold arm_shape.
  cbn [ArmState.A ArmState.b].
  unfold mat_add, vec_add, vec_scale, outer. unfold vector, matrix in *.
  split; [rewrite length_zip_with, length_map; lia|].
  split; [|rewrite length_zip_with, length_map; lia].
  apply Forall_forall. intros row Hrow.
  apply list_elem_of_lookup in Hrow as [i Hi].
  apply lookup_zip_with_Some in Hi as (a & o & -> & Ha & Ho).
  rewrite Forall_forall in Hrows.
  assert (La : length a = n) by (apply Hrows; eapply list_elem_of_lookup_2; eassumption).
  assert (Lo : length o = n).
  { apply list_elem_of_lookup_2, list_elem_of_fmap in Ho as (xi & -> & _).
    now rewrite length_map. }
  rewrite length_zip_with. lia.
Qed.

Lemma only_fresh_shape (n : nat) (s s' : LinUCBBandit.t) :
  only_fresh_arms_added s s' -> store_shape n s -> store_shape n s'.
Proof.
  intros [(_ & _ & Hd & _) Harms] [Hn Hs]. split; [congruence|].
  intros uid dish arm Harm. specialize (Harms uid dish).
  destruct (arm_of uid dish s) as [a|] eqn:Ea.
  - rewrite Harms in Harm. injection Harm as <-. now apply (Hs uid dish).
  - destruct Harms as [Hx|Hx]; rewrite Hx in Harm; [discriminate|].
    injection Harm as <-. rewrite Hn. apply create_shape.
Qed.

Lemma run_call_shape `{LinAlg} (c : bandit_call) (s : LinUCBBandit.t) :
  store_shape 11 s -> store_shape 11 (run_call c s).
Proof.
  intros Hs. destruct c as [p dt mt df wc mx | p dt mt row fb]; cbn [run_call].
  - eapply only_fresh_shape; [apply ArmFacts.select_dish_only_fresh | exact Hs].
  - destruct Hs as [Hd Harms].
    destruct (BanditFacts.update_params p dt mt row fb s) as [Hd' _].
    split; [congruence|]. intros uid dish arm Harm.
    destruct (decide ((uid, dish) = (user_id p, Dish_Name row))) as [[= -> ->]|Hne].
    + pose proof (ArmFacts.update_own_arm p dt mt row fb s) as Hout.
      assert (Hold : arm_shape 11 (LinUCBBandit.get_arm (user_id p) (Dish_Name row) s)).
      { rewrite ArmFacts.get_arm_arm_of.
        destruct (arm_of (user_id p) (Dish_Name row) s) as [a|] eqn:Ea; simpl.
        - now apply (Harms _ _ _ Ea).
        - rewrite Hd. apply create_shape. }
      destruct (snd (LinUCBBandit.update p dt mt row fb s)) as [[]|e].
      * destruct Hout as (x & Hx & Hnew). rewrite Hnew in Harm. injection Harm as <-.
        apply trained_shape; [exact Hold|].
        exact (context_length p dt mt row x Hx).
      * destruct Hout as (_ & _ & Hnew). rewrite Hnew in Harm. now injection Harm as <-.
    + rewrite (ArmFacts.update_other_arm p dt mt row fb s uid dish Hne) in Harm.
      now apply (Harms _ _ _ Harm).
Qed.

Lemma run_calls_shape `{LinAlg} (cs : list bandit_call) (s : LinUCBBandit.t) :
  store_shape 11 s -> store_shape 11 (run_calls cs s).
Proof.
  revert s. induction cs as [|c cs IH]; intros s Hs; [exact Hs|].
  apply IH. now apply run_call_shape.
Qed.

(** X13: in a store created with [d = 11], whatever calls follow, [d] stays
    11 and every arm has an 11 x 11 matrix [A] and a vector [b] of length 11,
    the length of the context vectors: the shapes numpy needs in [select_dish]
    and [update] always agree. *)
Theorem arms_keep_shape `{LinAlg} (alpha : Q) (cs : list bandit_call)
    (uid dish_id : string) (arm : ArmState.t) :
  LinUCBBandit.d (run_calls cs (LinUCBBandit.init 11 alpha)) = 11%nat /\
  (arm_of uid dish_id (run_calls cs (LinUCBBandit.init 11 alpha)) = Some arm ->
   length (ArmState.A arm) = 11%nat /\
   Forall (fun row => length row = 11%nat) (ArmState.A arm) /\
   length (ArmState.b arm) = 11%nat).
Proof.
  assert (Hinit : store_shape 11 (LinUCBBandit.init 11 alpha)).
  { split; [reflexivity|]. intros u dsh a Ha. discriminate Ha. }
  destruct (run_calls_shape cs _ Hinit) as [Hd Harms].
  split; [exact Hd|]. intros Harm. exact (Harms uid dish_id arm Harm).
Qed.

Lemma arms_keep_shape_witness :
  arm_of "alice" "Veg Pulao" alice_store <> None /\
  forall arm, arm_of "alice" "Veg Pulao" alice_store = Some arm ->
              length (ArmState.A arm) = 11%nat.
Proof.
  split; [vm_compute; discriminate|].
  intros arm Harm.
  exact (proj1 (proj2 (arms_keep_shape (H := sample_linalg) 0.4
                         [CallUpdate alice (compute_macro_targets alice) "lunch" pulao (-1)]
                         "alice" "Veg Pulao" arm) Harm)).
Defined.

(** *** Symmetry *)

Lemma lookup_map {A B} (f : A -> B) (l : list A) (i : nat) :
  map f l !! i = option_map f (l !! i).
Proof.
  revert i. induction l as [|a l IH]; intros [|i]; simpl; try reflexivity. apply IH.
Qed.

Lemma entry_eye (n i j : nat) :
  entry (np_eye n) i j
  = if decide (i < n)%nat
    then if decide (j < n)%nat then Some (if Nat.eqb i j then 1 else 0) else None
    else None.
Proof.
  unfold entry, np_eye, matrix, vector. rewrite lookup_map.
  destruct (decide (i < n)%nat) as [Hi|Hi].
  - rewrite lookup_seq_lt by exact Hi. cbn [option_map Nat.add]. rewrite lookup_map.
    destruct (decide (j < n)%nat) as [Hj|Hj].
    + now rewrite lookup_seq_lt by exact Hj.
    + now rewrite lookup_seq_ge by lia.
  - now rewrite lookup_seq_ge by lia.
Qed.

Lemma entry_outer (u v : list Q) (i j : nat) :
  entry (outer u v) i j
  = match u !! i, v !! j with
    | Some a, Some b => Some (a * b)
    | _, _ => None
    end.
Proof.
  unfold entry, outer, matrix, vector. rewrite lookup_map.
  destruct (u !! i) as [a|]; cbn [option_map]; [|reflexivity].
  rewrite lookup_map. now destruct (v !! j).
Qed.

Lemma entry_mat_add (M N : list (list Q)) (i j : nat) :
  entry (mat_add M N) i j
  = match entry M i j, entry N i j with
    | Some a, Some b => Some (a + b)
    | _, _ => None
    end.
Proof.
  unfold entry, mat_add, vec_add, matrix, vector. rewrite lookup_zip_with.
  destruct (M !! i) as [m|]; simpl; [|reflexivity].
  destruct (N !! i) as [n|]; simpl; [|now destruct (m !! j)].
  rewrite lookup_zip_with.
  destruct (m !! j) as [a|]; simpl; [|reflexivity].
  now destruct (n !! j).
Qed.

Lemma eye_symmetric (n : nat) : symmetric (np_eye n).
Proof.
  intros i j. rewrite !entry_eye.
  destruct (decide (i < n)%nat), (decide (j < n)%nat); try exact I.
  rewrite (Nat.eqb_sym j i). reflexivity.
Qed.

Lemma outer_symmetric (x : list Q) : symmetric (outer x x).
Proof.
  intros i j. rewrite !entry_outer.
  destruct (x !! i), (x !! j); try exact I. ring.
Qed.

Lemma mat_add_symmetric (M N : list (list Q)) :
  symmetric M -> symmetric N -> symmetric (mat_add M N).
Proof.
  intros HM HN i j. rewrite !entry_mat_add.
  specialize (HM i j). specialize (HN i j).
  destruct (entry M i j), (entry M j i), (entry N i j), (entry N j i);
    try exact I; try contradiction.
  now rewrite HM, HN.
Qed.

Lemma only_fresh_symmetric (s s' : LinUCBBandit.t) :
  only_fresh_arms_added s s' -> store_symmetric s -> store_symmetric s'.
Proof.
  intros [_ Harms] Hs uid dish arm Harm. specialize (Harms uid dish).
  destruct (arm_of uid dish s) as [a|] eqn:Ea.
  - rewrite Harms in Harm. injection Harm as <-. now apply (Hs uid dish).
  - destruct Harms as [Hx|Hx]; rewrite Hx in Harm; [discriminate|].
    injection Harm as <-. apply eye_symmetric.
Qed.

Lemma run_call_symmetric `{LinAlg} (c : bandit_call) (s : LinUCBBandit.t) :
  store_symmetric s -> store_symmetric (run_call c s).
Proof.
  intros Hs. destruct c as [p dt mt df wc mx | p dt mt row fb]; cbn [run_call].
  - eapply only_fresh_symmetric; [apply ArmFacts.select_dish_only_fresh | exact Hs].
  - intros uid dish arm Harm.
    destruct (decide ((uid, dish) = (user_id p, Dish_Name row))) as [[= -> ->]|Hne].
    + pose proof (ArmFacts.update_own_arm p dt mt row fb s) as Hout.
      assert (Hold : symmetric (ArmState.A (LinUCBBandit.get_arm (user_id p) (Dish_Name row) s))).
      { rewrite ArmFacts.get_arm_arm_of.
        destruct (arm_of (user_id p) (Dish_Name row) s) as [a|] eqn:Ea; simpl.
        - now apply (Hs _ _ _ Ea).
        - apply eye_symmetric. }
      destruct (snd (LinUCBBandit.update p dt mt row fb s)) as [[]|e].
      * destruct Hout as (x & Hx & Hnew). rewrite Hnew in Harm. injection Harm as <-.
        simpl. apply mat_add_symmetric; [exact Hold | apply outer_symmetric].
      * destruct Hout as (_ & _ & Hnew). rewrite Hnew in Harm. now injection Harm as <-.
    + rewrite (ArmFacts.update_other_arm p dt mt row fb s uid dish Hne) in Harm.
      now apply (Hs _ _ _ Harm).
Qed.

Lemma run_calls_symmetric `{LinAlg} (cs : list bandit_call) (s : LinUCBBandit.t) :
  store_symmetric s -> store_symmetric (run_calls cs s).
Proof.
  revert s. induction cs as [|c cs IH]; intros s Hs; [exact Hs|].
  apply IH. now apply run_call_symmetric.
Qed.

(** X14: the matrix [A] of every arm stays symmetric: it starts as the
    identity and each [update] adds the symmetric [x x^T]; no call breaks
    it, for any dimension and any sequence of calls on a new store. *)
Theorem arms_stay_symmetric `{LinAlg} (d0 : nat) (alpha : Q) (cs : list bandit_call)
    (uid dish_id : string) (arm : ArmState.t) (i j : nat) :
  arm_of uid dish_id (run_calls cs (LinUCBBandit.init d0 alpha)) = Some arm ->
  match entry (ArmState.A arm) i j, entry (ArmState.A arm) j i with
  | Some a, Some b => a == b
  | None, None => True
  | _, _ => False
  end.
Proof.
  intros Harm.
  assert (Hinit : store_symmetric (LinUCBBandit.init d0 alpha)).
  { intros u dsh a Ha. discriminate Ha. }
  exact (run_calls_symmetric cs _ Hinit uid dish_id arm Harm i j).
Qed.

Lemma arms_stay_symmetric_witness :
  exists arm,
    arm_of "alice" "Veg Pulao" alice_store = Some arm /\
    match entry (ArmState.A arm) 1 7, entry (ArmState.A arm) 7 1 with
    | Some a, Some b => a == b
    | None, None => True
    | _, _ => False
    end.
Proof.
  destruct (arm_of "alice" "Veg Pulao" alice_store) as [arm|] eqn:Harm;
    [|vm_compute in Harm; discriminate Harm].
  exists arm. split; [reflexivity|].
  exact (arms_stay_symmetric (H := sample_linalg) 11 0.4
           [CallUpdate alice (compute_macro_targets alice) "lunch" pulao (-1)]
           "alice" "Veg Pulao" arm 1 7 Harm).
Defined.

(* ===================================================================== *)
(** * Further properties of the persistence                               *)
(* ===================================================================== *)

Lemma split_once_none_iff (sep s : string) :
  split_once sep s = None <-> contains sep s = false.
Proof.
  induction s as [|c s IH].
  - unfold split_once, contains.
    destruct (String.prefix sep ""); cbn [orb]; split; intros E; try discriminate E;
      reflexivity.
  - unfold split_once, contains; fold split_once; fold contains.
    destruct (String.prefix sep (String c s)); cbn [orb];
      [split; intros E; discriminate E|].
    rewrite <- IH. destruct (split_once sep s) as [[u d]|]; split; intros E;
      try discriminate E; reflexivity.
Qed.

Lemma load_counters_outcome (items : dict string Z) (out : dict (string * string) Z) :
  if keys_have_separator items
  then exists out', LinUCBBandit.load_counters items out = Ok out'
  else LinUCBBandit.load_counters items out = Raise ValueError.
Proof.
  revert out. induction items as [|[k v] items IH]; intros out; simpl; [eauto|].
  destruct (split_once "||" k) as [key|] eqn:Ek.
  - assert (Hc : contains "||" k = true).
    { destruct (contains "||" k) eqn:E; [reflexivity|].
      apply split_once_none_iff in E. congruence. }
    simpl in Hc. rewrite Hc. simpl. apply IH.
  - apply split_once_none_iff in Ek. simpl in Ek. rewrite Ek. reflexivity.
Qed.

(** X16: [load] fails in two ways only.  A path with no file raises
    [FileNotFoundError]; a file in which some like or dislike key has no
    separator raises [ValueError]; every other file loads, into a store with
    the file's [d] and [alpha]. *)
Theorem load_outcome (path : string) (fs : LinUCBBandit.filesystem) :
  match dict_lookup path fs with
  | None => LinUCBBandit.load path fs = Raise (FileNotFoundError path)
  | Some dt =>
      if keys_have_separator (LinUCBBandit.ser_likes dt)
         && keys_have_separator (LinUCBBandit.ser_dislikes dt)
      then exists s, LinUCBBandit.load path fs = Ok s /\
                     LinUCBBandit.d s = LinUCBBandit.ser_d dt /\
                     LinUCBBandit.alpha s = LinUCBBandit.ser_alpha dt
      else LinUCBBandit.load path fs = Raise ValueError
  end.
Proof.
  unfold LinUCBBandit.load. destruct (dict_lookup path fs) as [dt|]; [|reflexivity].
  unfold LinUCBBandit.from_serializable.
  set (st := fold_left _ _ _). cbn [LinUCBBandit.likes LinUCBBandit.with_state].
  pose proof (load_counters_outcome (LinUCBBandit.ser_likes dt) []) as Hl.
  destruct (keys_have_separator (LinUCBBandit.ser_likes dt)); simpl.
  - destruct Hl as [l ->]. simpl.
    pose proof (load_counters_outcome (LinUCBBandit.ser_dislikes dt) []) as Hd.
    destruct (keys_have_separator (LinUCBBandit.ser_dislikes dt)).
    + destruct Hd as [dl ->]. simpl. eexists. split; [reflexivity|]. now split.
    + now rewrite Hd.
  - now rewrite Hl.
Qed.

(* ===================================================================== *)
(** * Further properties of the filter and the planner                    *)
(* ===================================================================== *)

(** X18: what [_filter_foods] keeps: exactly the catalog rows whose category
    equals the slot up to letter case, whose diet tag is veg (up to case)
    when the profile is vegetarian, and whose lower-cased name contains none
    of the profile's lower-cased allergy strings. *)
Theorem filter_foods_spec (food_df : list Dish) (profile : UserProfile)
    (meal_type : string) (row : Dish) :
  In row (MealRecommender._filter_foods food_df profile meal_type) <->
  In row food_df /\
  lower (Category row) = lower meal_type /\
  (dietary_pref profile = veg -> lower (Veg_NonVeg row) = "veg"%string) /\
  (forall als a, allergies profile = Some als -> In a als ->
                 contains (lower a) (lower (Dish_Name row)) = false).
Proof.
  unfold MealRecommender._filter_foods.
  set (bycat := List.filter _ food_df).
  assert (Hcat : forall r, In r bycat <-> In r food_df /\ lower (Category r) = lower meal_type).
  { intros r. unfold bycat. rewrite filter_In, bool_decide_eq_true. tauto. }
  set (bydiet := match dietary_pref profile with veg => _ | non_veg => _ end).
  assert (Hdiet : forall r, In r bydiet <->
            In r bycat /\ (dietary_pref profile = veg -> lower (Veg_NonVeg r) = "veg"%string)).
  { intros r. unfold bydiet. destruct (dietary_pref profile).
    - rewrite filter_In, bool_decide_eq_true. tauto.
    - split; [intros Hr; split; [exact Hr|discriminate]|tauto]. }
  assert (Hall : forall als r,
            negb (MealRecommender.has_allergen (map lower als) (lower (Dish_Name r))) = true
            <-> forall a, In a als -> contains (lower a) (lower (Dish_Name r)) = false).
  { intros als r. unfold MealRecommender.has_allergen.
    rewrite negb_true_iff. split.
    - intros Hex a Ha. destruct (contains (lower a) _) eqn:E; [|reflexivity].
      assert (Ht : existsb (fun a0 => contains a0 (lower (Dish_Name r))) (map lower als) = true).
      { apply existsb_exists. exists (lower a). split; [now apply in_map|exact E]. }
      congruence.
    - intros Hno. destruct (existsb _ _) eqn:E; [|reflexivity].
      apply existsb_exists in E as (a' & Hin & Hc).
      apply in_map_iff in Hin as (a & <- & Ha). rewrite (Hno a Ha) in Hc. discriminate. }
  destruct (allergies profile) as [[|a0 als]|].
  - rewrite Hdiet, Hcat. split; [|tauto].
    intros ((Hin & Hc) & Hd). repeat split; try assumption.
    intros als a [= <-] [].
  - rewrite filter_In, Hdiet, Hcat, (Hall (a0 :: als)). split.
    + intros (((Hin & Hc) & Hd) & Ha). repeat split; try assumption.
      intros als' a [= <-]. apply Ha.
    + intros (Hin & Hc & Hd & Ha). repeat split; try assumption.
      intros a Hina. exact (Ha (a0 :: als) a eq_refl Hina).
  - rewrite Hdiet, Hcat. split; [|tauto].
    intros ((Hin & Hc) & Hd). repeat split; try assumption. discriminate.
Qed.

Module PlanEntryFacts.
Import MealRecommender.

Lemma dict_set_elem {K V} `{EqDecision K} (k : K) (v : V) (m : dict K V) (kv : K * V) :
  In kv (dict_set k v m) -> kv = (k, v) \/ In kv m.
Proof.
  induction m as [|[k' v'] m IH]; simpl.
  - intros [<-|[]]. now left.
  - destruct (decide (k = k')) as [->|Hne]; simpl.
    + intros [<-|Hin]; auto.
    + intros [<-|Hin]; auto. destruct (IH Hin); auto.
Qed.

Lemma dict_lookup_In {K V} `{EqDecision K} (k : K) (v : V) (m : dict K V) :
  dict_lookup k m = Some v -> In (k, v) m.
Proof.
  induction m as [|[k' v'] m IH]; simpl; [discriminate|].
  destruct (decide (k = k')) as [->|Hne]; [intros [= ->]; now left|auto].
Qed.

Section Entries.
Context `{LinAlg}.
Variable food_df : list Dish.
Variable profile : UserProfile.
Variable daily : MacroTargets Q.
Variable dl : dict (string * string) Z.

(** An entry stored under a slot is the snapshot of a row that the filter
    admits for the slot and that the user has not disliked. *)
Let eligible (slot : string) (e : MealEntry) : Prop :=
  exists row,
    In row (_filter_foods food_df profile slot) /\
    e = meal_entry slot row /\
    (dict_get (user_id profile, Dish_Name row) 0 dl <= 0)%Z.

Lemma plan_meals_entries slots wc day_meals bandit bandit' wc' day_meals' :
  plan_meals food_df profile daily slots wc day_meals bandit
    = (bandit', Ok (wc', day_meals')) ->
  LinUCBBandit.dislikes bandit = dl ->
  (forall k e, In (k, Some e) day_meals -> eligible k e) ->
  LinUCBBandit.dislikes bandit' = dl /\
  (forall k e, In (k, Some e) day_meals' -> eligible k e).
Proof.
  revert wc day_meals bandit.
  induction slots as [|mt slots IH]; intros wc day_meals bandit; simpl.
  - intros [= <- <- <-] Hdl Hacc. now split.
  - pose proof (PlannerFacts.plan_slot_spec food_df profile daily mt wc bandit) as [Hc Hs].
    destruct (plan_slot food_df profile daily mt wc bandit) as [b1 [[wc1 e]|err]];
      [|discriminate].
    simpl in Hc, Hs. intros Hrun Hdl Hacc.
    destruct Hc as (_ & Hd1 & _).
    apply IH in Hrun; [exact Hrun|congruence|].
    intros k e' Hin. apply dict_set_elem in Hin as [[= -> <-]|Hin]; [|now apply Hacc].
    destruct Hs as (row & Hrow & -> & _ & Hnd & _).
    exists row. rewrite <- Hdl. now repeat split.
Qed.

Lemma plan_days_entries day_idxs wc acc bandit bandit' ds :
  plan_days food_df profile daily day_idxs wc acc bandit = (bandit', Ok ds) ->
  LinUCBBandit.dislikes bandit = dl ->
  (forall dp k e, In dp acc -> In (k, Some e) (meals dp) -> eligible k e) ->
  forall dp k e, In dp ds -> In (k, Some e) (meals dp) -> eligible k e.
Proof.
  revert wc acc bandit.
  induction day_idxs as [|i idxs IH]; intros wc acc bandit; cbn [plan_days].
  - intros [= <- <-] _ Hacc. exact Hacc.
  - destruct (plan_meals food_df profile daily MEAL_ORDER wc [] bandit)
      as [b1 [[wc1 m1]|err]] eqn:Hm; [|discriminate].
    intros Hrun Hdl Hacc.
    apply plan_meals_entries in Hm as [Hdl1 Hm1]; [|exact Hdl|intros ? ? []].
    apply (IH _ _ _ Hrun Hdl1).
    intros dp k e Hdp Hin. apply in_app_or in Hdp as [Hdp|[<-|[]]].
    + now apply (Hacc dp).
    + now apply Hm1.
Qed.

Lemma plan_slot_only_fresh meal_type wc bandit :
  only_fresh_arms_added bandit (fst (plan_slot food_df profile daily meal_type wc bandit)).
Proof.
  unfold plan_slot.
  destruct (_filter_foods food_df profile meal_type) as [|c cs];
    [apply ArmFacts.only_fresh_refl|].
  pose proof (ArmFacts.select_dish_only_fresh profile daily meal_type (c :: cs) wc 2 bandit)
    as Hf.
  destruct (LinUCBBandit.select_dish _ _ _ _ _ _ _) as [b' [[row|]|e]]; exact Hf.
Qed.

Lemma plan_meals_only_fresh slots wc day_meals bandit :
  only_fresh_arms_added bandit
    (fst (plan_meals food_df profile daily slots wc day_meals bandit)).
Proof.
  revert wc day_meals bandit.
  induction slots as [|mt slots IH]; intros wc day_meals bandit; simpl.
  - apply ArmFacts.only_fresh_refl.
  - pose proof (plan_slot_only_fresh mt wc bandit) as Hf.
    destruct (plan_slot food_df profile daily mt wc bandit) as [b1 [[wc1 e]|err]];
      simpl in *; [|exact Hf].
    eapply ArmFacts.only_fresh_trans; [exact Hf | apply IH].
Qed.

Lemma plan_days_only_fresh day_idxs wc acc bandit :
  only_fresh_arms_added bandit
    (fst (plan_days food_df profile daily day_idxs wc acc bandit)).
Proof.
  revert wc acc bandit.
  induction day_idxs as [|i idxs IH]; intros wc acc bandit; cbn [plan_days].
  - apply ArmFacts.only_fresh_refl.
  - pose proof (plan_meals_only_fresh MEAL_ORDER wc [] bandit) as Hf.
    destruct (plan_meals food_df profile daily MEAL_ORDER wc [] bandit)
      as [b1 [[wc1 m1]|err]]; simpl in *; [|exact Hf].
    eapply ArmFacts.only_fresh_trans; [exact Hf | apply IH].
Qed.

End Entries.
End PlanEntryFacts.

(** ** Slots that are filled *)

Module PlanFillFacts.
Import MealRecommender.

Section Fill.
Context `{LinAlg}.
Variable food_df : list Dish.
Variable profile : UserProfile.
Variable daily : MacroTargets Q.
Variable bandit0 : LinUCBBandit.t.










End Fill.
End PlanFillFacts.



(** X19: every meal of a returned plan is the snapshot of a catalog row that
    [_filter_foods] admits for the profile and the slot it is stored under
    (so category, diet and allergies are respected) and that the user had not
    disliked when the plan was made: it has the row's name, macros and diet
    tag, the slot as its category, and the row's price when the row has one. *)
Theorem plan_meals_are_eligible `{LinAlg} (food_df : list Dish) (profile : UserProfile)
    (bandit bandit' : LinUCBBandit.t) (plan : WeeklyPlan)
    (dp : DayPlan) (slot : string) (e : MealEntry) :
  MealRecommender.generate_weekly_plan food_df profile bandit = (bandit', Ok plan) ->
  In dp (days plan) ->
  dict_lookup slot (meals dp) = Some (Some e) ->
  exists row,
    In row (MealRecommender._filter_foods food_df profile slot) /\
    (dict_get (user_id profile, Dish_Name row) 0 (LinUCBBandit.dislikes bandit) <= 0)%Z /\
    entry_dish_name e = Dish_Name row /\
    entry_calories_kcal e = Calories_kcal row /\
    entry_protein_g e = Protein_g row /\
    entry_carbs_g e = Carbs_g row /\
    entry_fats_g e = Fats_g row /\
    entry_category e = slot /\
    entry_veg_nonveg e = Veg_NonVeg row /\
    (forall price, Price_INR row = Some price -> entry_price_inr e = price).
Proof.
  unfold MealRecommender.generate_weekly_plan.
  destruct (MealRecommender.plan_days _ _ _ _ _ _ _) as [b1 [ds|err]] eqn:Hrun;
    [|discriminate].
  intros [= <- <-] Hdp Hl. simpl in Hdp.
  destruct (PlanEntryFacts.plan_days_entries food_df profile _ (LinUCBBandit.dislikes bandit)
              _ _ _ _ _ _ Hrun eq_refl (fun _ _ _ F => match F with end) dp slot e Hdp
              (PlanEntryFacts.dict_lookup_In _ _ _ Hl))
    as (row & Hrow & -> & Hnd).
  exists row. cbn [MealRecommender.meal_entry entry_dish_name entry_calories_kcal
                   entry_protein_g entry_carbs_g entry_fats_g entry_category
                   entry_veg_nonveg entry_price_inr].
  repeat split; try assumption. now intros price ->.
Qed.

Lemma plan_meals_are_eligible_witness :
  MealRecommender.generate_weekly_plan (H := sample_linalg) priced_catalog alice fresh_store
  = (fst priced_run, Ok priced_plan) /\
  In priced_day1 (days priced_plan) /\
  dict_lookup "lunch"%string (meals priced_day1)
  = Some (Some (MealRecommender.meal_entry "lunch" biryani)) /\
  exists row,
    In row (MealRecommender._filter_foods priced_catalog alice "lunch") /\
    Dish_Name row = "Veg Biryani"%string /\
    (forall price, Price_INR row = Some price -> price = 90).
Proof.
  assert (Hrun : MealRecommender.generate_weekly_plan (H := sample_linalg) priced_catalog
                   alice fresh_store = (fst priced_run, Ok priced_plan))
    by (vm_compute; reflexivity).
  assert (Hin : In priced_day1 (days priced_plan)) by (vm_compute; left; reflexivity).
  assert (Hl : dict_lookup "lunch"%string (meals priced_day1)
               = Some (Some (MealRecommender.meal_entry "lunch" biryani)))
    by (vm_compute; reflexivity).
  split; [exact Hrun|]. split; [exact Hin|]. split; [exact Hl|].
  destruct (plan_meals_are_eligible (H := sample_linalg) priced_catalog alice fresh_store
              (fst priced_run) priced_plan priced_day1 "lunch"
              (MealRecommender.meal_entry "lunch" biryani) Hrun Hin Hl)
    as (row & Hrow & _ & Hname & _ & _ & _ & _ & _ & _ & Hprice).
  exists row. split; [exact Hrow|]. split; [symmetry; exact Hname|].
  intros price Hp. symmetry. exact (Hprice price Hp).
Defined.

(** X20: a dish the user has disliked is in no returned plan for that user:
    if the store holds a positive dislike count for the pair, the dish name
    occurs in none of the plan's meals. *)
Theorem plan_excludes_disliked `{LinAlg} (food_df : list Dish) (profile : UserProfile)
    (bandit bandit' : LinUCBBandit.t) (plan : WeeklyPlan) (name : string) :
  (0 < dict_get (user_id profile, name) 0 (LinUCBBandit.dislikes bandit))%Z ->
  MealRecommender.generate_weekly_plan food_df profile bandit = (bandit', Ok plan) ->
  occurrences name (plan_entries plan) = 0%nat.
Proof.
  intros Hdis. unfold MealRecommender.generate_weekly_plan.
  destruct (MealRecommender.plan_days _ _ _ _ _ _ _) as [b1 [ds|err]] eqn:Hrun;
    [|discriminate].
  intros [= <- <-]. unfold plan_entries, occurrences. simpl.
  apply length_zero_iff_nil.
  destruct (List.filter _ _) as [|e es] eqn:Hf; [reflexivity|]. exfalso.
  assert (He : In e (List.filter
                       (fun e0 => bool_decide (entry_dish_name e0 = name))
                       (concat (map day_entries ds)))) by (rewrite Hf; now left).
  apply filter_In in He as [Hin Hname]. apply bool_decide_eq_true in Hname.
  apply in_concat in Hin as (l & Hl & Hel).
  apply in_map_iff in Hl as (dp & <- & Hdp).
  unfold day_entries in Hel.
  apply list_elem_of_In, list_elem_of_omap in Hel as ([k v] & Hkv & Hv).
  simpl in Hv. subst v. apply list_elem_of_In in Hkv.
  destruct (PlanEntryFacts.plan_days_entries food_df profile _ (LinUCBBandit.dislikes bandit)
              _ _ _ _ _ _ Hrun eq_refl (fun _ _ _ F => match F with end) dp k e Hdp Hkv)
    as (row & _ & -> & Hnd).
  simpl in Hname. subst name. lia.
Qed.

Lemma plan_excludes_disliked_witness :
  (0 < dict_get (user_id alice, "Veg Pulao"%string) 0 (LinUCBBandit.dislikes alice_store))%Z /\
  forall bandit' plan,
    MealRecommender.generate_weekly_plan (H := sample_linalg) catalog alice alice_store
      = (bandit', Ok plan) ->
    occurrences "Veg Pulao" (plan_entries plan) = 0%nat.
Proof.
  assert (Hd : (0 < dict_get (user_id alice, "Veg Pulao"%string) 0
                     (LinUCBBandit.dislikes alice_store))%Z) by (vm_compute; reflexivity).
  split; [exact Hd|]. intros bandit' plan Hrun.
  exact (plan_excludes_disliked (H := sample_linalg) catalog alice alice_store bandit' plan
           "Veg Pulao" Hd Hrun).
Defined.

(** X21: making a plan teaches the bandit nothing, whether the plan is
    returned or an exception ends it: likes, dislikes, [d] and [alpha] are
    unchanged, every arm that existed keeps its [A] and [b], and the arms
    added are in their initial state. *)
Theorem planning_learns_nothing `{LinAlg} (food_df : list Dish) (profile : UserProfile)
    (bandit : LinUCBBandit.t) (uid dish_id : string) :
  let bandit' := fst (MealRecommender.generate_weekly_plan food_df profile bandit) in
  LinUCBBandit.likes bandit' = LinUCBBandit.likes bandit /\
  LinUCBBandit.dislikes bandit' = LinUCBBandit.dislikes bandit /\
  LinUCBBandit.d bandit' = LinUCBBandit.d bandit /\
  LinUCBBandit.alpha bandit' = LinUCBBandit.alpha bandit /\
  (forall arm, arm_of uid dish_id bandit = Some arm -> arm_of uid dish_id bandit' = Some arm) /\
  (arm_of uid dish_id bandit = None ->
   arm_of uid dish_id bandit' = None \/
   arm_of uid dish_id bandit' = Some (ArmState.mk (np_eye (LinUCBBandit.d bandit))
                                                  (np_zeros (LinUCBBandit.d bandit)))).
Proof.
  intros bandit'.
  assert (Hf : only_fresh_arms_added bandit bandit').
  { subst bandit'. unfold MealRecommender.generate_weekly_plan.
    pose proof (PlanEntryFacts.plan_days_only_fresh food_df profile
                  (compute_macro_targets profile) MealRecommender.range7 [] [] bandit) as Hp.
    destruct (MealRecommender.plan_days _ _ _ _ _ _ _) as [b1 [ds|err]]; exact Hp. }
  destruct Hf as [(Hl & Hdl & Hd & Ha) Harms]. specialize (Harms uid dish_id).
  repeat split; try assumption.
  - intros arm Harm. now rewrite Harm in Harms.
  - intros Hnone. now rewrite Hnone in Harms.
Qed.

(* ===================================================================== *)
(** * Properties of the catalog classifiers                               *)
(* ===================================================================== *)

Lemma any_keyword_app (l1 l2 : list string) (n : string) :
  any_keyword (l1 ++ l2) n = any_keyword l1 n || any_keyword l2 n.
Proof. unfold any_keyword. apply existsb_app. Qed.

Lemma food_df_rows (frame : CatalogInit.food_frame) (row : Dish) :
  In row (CatalogInit.food_df frame) ->
  exists raw,
    In raw (CatalogInit.frame_rows frame) /\
    Dish_Name row = Dish_Name raw /\
    Calories_kcal row = Calories_kcal raw /\ Protein_g row = Protein_g raw /\
    Carbs_g row = Carbs_g raw /\ Fats_g row = Fats_g raw /\
    Price_INR row = Price_INR raw /\
    (CatalogInit.has_Category frame = false ->
       Category row = CatalogInit._cat (Dish_Name raw)) /\
    (CatalogInit.has_Category frame = true -> Category row = Category raw) /\
    (CatalogInit.has_Veg_NonVeg frame = false ->
       Veg_NonVeg row = CatalogInit._veg (Dish_Name raw)) /\
    (CatalogInit.has_Veg_NonVeg frame = true -> Veg_NonVeg row = Veg_NonVeg raw).
Proof.
  unfold CatalogInit.food_df.
  destruct (CatalogInit.has_Category frame), (CatalogInit.has_Veg_NonVeg frame); intros Hin.
  - exists row. repeat split; try reflexivity; try discriminate. exact Hin.
  - apply in_map_iff in Hin as (raw & <- & Hraw).
    exists raw. repeat split; try reflexivity; try discriminate. exact Hraw.
  - apply in_map_iff in Hin as (raw & <- & Hraw).
    exists raw. repeat split; try reflexivity; try discriminate. exact Hraw.
  - apply in_map_iff in Hin as (mid & <- & Hmid).
    apply in_map_iff in Hmid as (raw & <- & Hraw).
    exists raw. repeat split; try reflexivity; try discriminate. exact Hraw.
Qed.

(** X22: both classifiers are total onto the planner's slots: whatever the
    dish name, the inferred category is one of breakfast, lunch, dinner,
    snack, so it matches exactly one slot in the filter; the inferred diet
    tag is Veg or Non-Veg, and it is Non-Veg exactly when a non-veg keyword
    occurs in the lower-cased name. *)
Theorem inferred_tags_are_total (name : string) :
  In (CatalogInit._cat name) MEAL_ORDER /\
  In (EnrichCsv.classify_category name) MEAL_ORDER /\
  (forall slot, In slot MEAL_ORDER ->
     lower (CatalogInit._cat name) = lower slot -> slot = CatalogInit._cat name) /\
  (CatalogInit._veg name = "Non-Veg"%string
   <-> any_keyword CatalogInit.NV_KW (lower name) = true) /\
  (CatalogInit._veg name = "Veg"%string
   <-> any_keyword CatalogInit.NV_KW (lower name) = false).
Proof.
  unfold CatalogInit._cat, EnrichCsv.classify_category, CatalogInit._veg, MEAL_ORDER.
  cbv zeta.
  destruct (any_keyword CatalogInit.BREAKFAST_KW (lower name)),
           (any_keyword CatalogInit.SNACK_KW (lower name)),
           (any_keyword CatalogInit.LUNCH_KW (lower name)),
           (any_keyword EnrichCsv.BREAKFAST_KW (lower name)),
           (any_keyword EnrichCsv.SNACK_KW (lower name)),
           (any_keyword EnrichCsv.LUNCH_KW (lower name)),
           (any_keyword EnrichCsv.DINNER_KW (lower name)),
           (any_keyword CatalogInit.NV_KW (lower name));
    (split; [simpl; tauto|]); (split; [simpl; tauto|]);
    (split; [intros slot [<-|[<-|[<-|[<-|[]]]]] Hl; solve [reflexivity | discriminate Hl]|]);
    split; split; intros E; solve [reflexivity | discriminate E].
Qed.

(** X23: the two classifier implementations agree on the diet tag for every
    name, and on the category for every name that contains neither "roti"
    nor "espreso" (keywords only the script has) - except that a name with
    no breakfast, snack, lunch or dinner keyword at all is "dinner" for the
    recommender and "lunch" for the script. *)
Theorem classifiers_agree (name : string) :
  EnrichCsv.classify_diet name = CatalogInit._veg name /\
  (contains "roti" (lower name) = false ->
   contains "espreso" (lower name) = false ->
   EnrichCsv.classify_category name = CatalogInit._cat name \/
   (EnrichCsv.classify_category name = "lunch"%string /\
    CatalogInit._cat name = "dinner"%string /\
    any_keyword EnrichCsv.DINNER_KW (lower name) = false)).
Proof.
  split; [reflexivity|]. intros Hroti Hesp.
  assert (Hb : any_keyword EnrichCsv.BREAKFAST_KW (lower name)
               = any_keyword CatalogInit.BREAKFAST_KW (lower name)).
  { change EnrichCsv.BREAKFAST_KW
      with (firstn 20 CatalogInit.BREAKFAST_KW
            ++ ["roti"%string] ++ skipn 20 CatalogInit.BREAKFAST_KW).
    rewrite <- (firstn_skipn 20 CatalogInit.BREAKFAST_KW) at 3.
    rewrite !any_keyword_app.
    unfold any_keyword at 2. cbn [existsb]. rewrite Hroti. reflexivity. }
  assert (Hs : any_keyword EnrichCsv.SNACK_KW (lower name)
               = any_keyword CatalogInit.SNACK_KW (lower name)).
  { change EnrichCsv.SNACK_KW
      with (firstn 42 CatalogInit.SNACK_KW
            ++ ["espreso"%string] ++ skipn 42 CatalogInit.SNACK_KW).
    rewrite <- (firstn_skipn 42 CatalogInit.SNACK_KW) at 3.
    rewrite !any_keyword_app.
    unfold any_keyword at 2. cbn [existsb]. rewrite Hesp. reflexivity. }
  unfold EnrichCsv.classify_category, CatalogInit._cat. cbv zeta.
  rewrite Hb, Hs. change EnrichCsv.LUNCH_KW with CatalogInit.LUNCH_KW.
  destruct (any_keyword CatalogInit.BREAKFAST_KW (lower name)); [now left|].
  destruct (any_keyword CatalogInit.SNACK_KW (lower name)); [now left|].
  destruct (any_keyword CatalogInit.LUNCH_KW (lower name)); [now left|].
  destruct (any_keyword EnrichCsv.DINNER_KW (lower name)); [now left|].
  right. now repeat split.
Qed.

Lemma classifiers_agree_witness :
  contains "roti" (lower "Paneer Tikka") = false /\
  contains "espreso" (lower "Paneer Tikka") = false /\
  EnrichCsv.classify_category "Paneer Tikka" = CatalogInit._cat "Paneer Tikka".
Proof.
  assert (Hr : contains "roti" (lower "Paneer Tikka") = false) by reflexivity.
  assert (He : contains "espreso" (lower "Paneer Tikka") = false) by reflexivity.
  split; [exact Hr|]. split; [exact He|].
  destruct (proj2 (classifiers_agree "Paneer Tikka") Hr He) as [Hagree|(_ & Hd & _)].
  - exact Hagree.
  - vm_compute in Hd. discriminate Hd.
Defined.

Lemma filter_foods_sound (food_df : list Dish) (profile : UserProfile)
    (meal_type : string) (row : Dish) :
  In row (MealRecommender._filter_foods food_df profile meal_type) ->
  In row food_df /\
  lower (Category row) = lower meal_type /\
  (dietary_pref profile = veg -> lower (Veg_NonVeg row) = "veg"%string).
Proof.
  unfold MealRecommender._filter_foods. intros Hin.
  assert (Hdiet : In row
            match dietary_pref profile with
            | veg => List.filter
                       (fun r => bool_decide (lower (Veg_NonVeg r) = "veg"%string))
                       (List.filter
                          (fun r => bool_decide (lower (Category r) = lower meal_type))
                          food_df)
            | non_veg => List.filter
                           (fun r => bool_decide (lower (Category r) = lower meal_type))
                           food_df
            end).
  { destruct (allergies profile) as [[|a als]|]; try exact Hin.
    apply filter_In in Hin. tauto. }
  destruct (dietary_pref profile).
  - apply filter_In in Hdiet as [Hcat Hv]. apply filter_In in Hcat as [Hdf Hc].
    apply bool_decide_eq_true in Hv, Hc. now repeat split.
  - apply filter_In in Hdiet as [Hdf Hc]. apply bool_decide_eq_true in Hc.
    repeat split; try assumption. discriminate.
Qed.

(** X24: when the data set has no diet column, a vegetarian profile is never
    offered a dish whose name contains a non-veg keyword (chicken, fish, egg,
    ...), in any letter case: [__init__] tags such a row Non-Veg and the
    filter drops it.  Names and macros of the rows pass through [__init__]
    unchanged. *)
Theorem inferred_diet_protects_vegetarians (frame : CatalogInit.food_frame)
    (profile : UserProfile) (meal_type : string) (row : Dish) :
  CatalogInit.has_Veg_NonVeg frame = false ->
  dietary_pref profile = veg ->
  In row (MealRecommender._filter_foods (CatalogInit.food_df frame) profile meal_type) ->
  any_keyword CatalogInit.NV_KW (lower (Dish_Name row)) = false /\
  exists raw,
    In raw (CatalogInit.frame_rows frame) /\
    Dish_Name row = Dish_Name raw /\
    Calories_kcal row = Calories_kcal raw /\ Protein_g row = Protein_g raw /\
    Carbs_g row = Carbs_g raw /\ Fats_g row = Fats_g raw.
Proof.
  intros Hcol Hveg Hin.
  apply filter_foods_sound in Hin as (Hdf & _ & Hv). specialize (Hv Hveg).
  apply food_df_rows in Hdf
    as (raw & Hraw & Hn & Hc & Hp & Hcb & Hf & _ & _ & _ & Htag & _).
  specialize (Htag Hcol). split.
  - rewrite Htag, Hn in *. unfold CatalogInit._veg in Hv. cbv zeta in Hv.
    destruct (any_keyword CatalogInit.NV_KW (lower (Dish_Name raw))); [|reflexivity].
    vm_compute in Hv. discriminate Hv.
  - exists raw. now repeat split.
Qed.

Lemma inferred_diet_protects_vegetarians_witness :
  In (mkDish "Paneer Tikka" "lunch" "Veg" 260 14 8 18 None)
     (MealRecommender._filter_foods (CatalogInit.food_df untagged_frame)
        alice "lunch") /\
  any_keyword CatalogInit.NV_KW (lower "Paneer Tikka") = false.
Proof.
  assert (Hin : In (mkDish "Paneer Tikka" "lunch" "Veg" 260 14 8 18 None)
                   (MealRecommender._filter_foods
                      (CatalogInit.food_df untagged_frame) alice "lunch"))
    by (vm_compute; left; reflexivity).
  split; [exact Hin|].
  exact (proj1 (inferred_diet_protects_vegetarians untagged_frame alice "lunch" _
                  eq_refl eq_refl Hin)).
Defined.

(* ===================================================================== *)
(** * Properties of the nutrition calculator                              *)
(* ===================================================================== *)








(** X28: the ratios estimated from the BMI move one way: a higher BMI never
    lowers the waist/hip and torso/leg ratios and never raises the
    shoulder/waist ratio and the body aspect ratio. *)
Theorem body_ratios_monotone (bmi1 bmi2 : Q) :
  bmi1 <= bmi2 ->
  match estimate_body_ratios bmi1, estimate_body_ratios bmi2 with
  | (waist_hip1, shoulder_waist1, torso_leg1, body_aspect1),
    (waist_hip2, shoulder_waist2, torso_leg2, body_aspect2) =>
      waist_hip1 <= waist_hip2 /\ shoulder_waist2 <= shoulder_waist1 /\
      torso_leg1 <= torso_leg2 /\ body_aspect2 <= body_aspect1
  end.
Proof.
  intros Hle. unfold estimate_body_ratios.
  qcases; try (repeat split; discriminate); exfalso; qlra.
Qed.

Lemma body_ratios_monotone_witness :
  22 <= 27 /\
  match estimate_body_ratios 22, estimate_body_ratios 27 with
  | (waist_hip1, shoulder_waist1, torso_leg1, body_aspect1),
    (waist_hip2, shoulder_waist2, torso_leg2, body_aspect2) =>
      waist_hip1 <= waist_hip2 /\ shoulder_waist2 <= shoulder_waist1 /\
      torso_leg1 <= torso_leg2 /\ body_aspect2 <= body_aspect1
  end.
Proof.
  assert (H : 22 <= 27) by discriminate.
  split; [exact H|]. exact (body_ratios_monotone 22 27 H).
Defined.
